(** * saas-analytics-postgres: the two reporting scripts

    A shallow embedding of [generate_erd.py] (the diagram pipeline) and
    [quick_dashboard.py] (the metrics pipeline), and the properties of
    the specification stated over it.

    Conventions of the embedding:
    - a Python [str] is a Rocq [string] holding its UTF-8 bytes; the
      length of a text counts its characters, not its bytes;
    - what a script does to the outside (a line printed, a file written,
      a process started, a query sent) is an [event]; a run leaves the
      trace of its events, in order;
    - code that can raise runs in a small trace-and-exception monad [M];
    - everything outside the process (the renderer binary, the file
      system, the database answers, the clock) is read from a record that
      the pipeline receives as an argument. *)

From Stdlib Require Import String Ascii List ZArith QArith Qabs Bool Lia.
From Stdlib Require Import SpecFloat DecimalString Permutation.
Import ListNotations.

Local Close Scope Q_scope.
Local Open Scope nat_scope.
Local Open Scope list_scope.
Local Open Scope string_scope.

(** ** Python runtime: strings *)

Module Py.

(** The line feed and the double quote, which a Rocq literal cannot hold
    as an escape. *)
Definition LF : string := String "010"%char EmptyString.
Definition DQ : string := String "034"%char EmptyString.

(** [str.split(sep)] for a non-empty [sep]: the text is cut at every
    occurrence of [sep], scanning from the left, occurrences not
    overlapping.  [skip] counts the characters of a matched separator
    still to be dropped; [cur] is the part being read. *)
Fixpoint split_from (sep : string) (skip : nat) (cur : string) (s : string)
  : list string :=
  match s with
  | EmptyString => [cur]
  | String c s' =>
      match skip with
      | S k => split_from sep k cur s'
      | O =>
          if prefix sep s
          then cur :: split_from sep (String.length sep - 1) EmptyString s'
          else split_from sep 0 (cur ++ String c EmptyString) s'
      end
  end.

Definition split (s sep : string) : list string :=
  split_from sep 0 EmptyString s.

(** [sep.join(parts)]. *)
Definition join (sep : string) (parts : list string) : string :=
  String.concat sep parts.

(** [s.replace(old, new)] for a non-empty [old]: every occurrence found
    by the left-to-right scan is replaced, which is [new.join(s.split(old))]. *)
Definition replace (s old new : string) : string :=
  join new (split s old).

(** [sep in s]. *)
Fixpoint contains (sep s : string) : bool :=
  prefix sep s ||
  match s with
  | EmptyString => false
  | String _ s' => contains sep s'
  end.

(** [len(s)]: the characters of the text.  In UTF-8 every character
    has one byte that is not a continuation byte [10xxxxxx]. *)
Definition is_continuation (c : ascii) : bool :=
  match c with
  | Ascii _ _ _ _ _ _ b6 b7 => b7 && negb b6
  end.

Fixpoint len (s : string) : nat :=
  match s with
  | EmptyString => 0
  | String c s' => (if is_continuation c then 0 else 1) + len s'
  end.

(** [s.isascii()]: no byte of the text is above 127. *)
Definition is_ascii_char (c : ascii) : bool :=
  match c with
  | Ascii _ _ _ _ _ _ _ b7 => negb b7
  end.

Fixpoint isascii (s : string) : bool :=
  match s with
  | EmptyString => true
  | String c s' => is_ascii_char c && isascii s'
  end.

(** ** Python runtime: exceptions and effects *)

Inductive exn : Type :=
| SystemExit (code : Z)
| KeyboardInterrupt
| FileNotFoundError
| CalledProcessError (returncode : Z) (msg : string)
| OSError
| Psycopg2Error (msg : string)
| AttributeError (msg : string)
| OverflowError (msg : string)
| ValueError (msg : string)
| ZeroDivisionError (msg : string).

(** [str(e)], for the exceptions whose text the scripts print. *)
Definition str_exn (e : exn) : string :=
  match e with
  | CalledProcessError _ msg => msg
  | Psycopg2Error msg => msg
  | AttributeError msg => msg
  | OverflowError msg => msg
  | ValueError msg => msg
  | ZeroDivisionError msg => msg
  | SystemExit _ | KeyboardInterrupt | FileNotFoundError | OSError => ""
  end.

(** [isinstance(e, Exception)]: [SystemExit] and [KeyboardInterrupt]
    derive from [BaseException] only. *)
Definition is_Exception (e : exn) : bool :=
  match e with
  | SystemExit _ | KeyboardInterrupt => false
  | _ => true
  end.

Inductive res (A : Type) : Type :=
| Ret (a : A)
| Raise (e : exn).
Arguments Ret {A} a.
Arguments Raise {A} e.

(** What a script does to the outside. *)
Inductive event : Type :=
| Print (line : string)
| WriteFile (path text : string)
| Subprocess (argv : list string)
| Execute (description : string)
| CloseConnection.

Definition trace : Type := list event.

(** A computation that may raise: its result and the events it caused,
    those before the exception included. *)
Definition M (A : Type) : Type := res A * trace.

Definition ret {A} (a : A) : M A := (Ret a, []).

Definition bind {A B} (m : M A) (k : A -> M B) : M B :=
  match m with
  | (Ret a, t) => let '(r, t') := k a in (r, (t ++ t')%list)
  | (Raise e, t) => (Raise e, t)
  end.

Definition raise {A} (e : exn) : M A := (Raise e, []).

(** A pure computation that may raise, run inside [M]. *)
Definition lift {A} (r : res A) : M A := (r, []).

(** [try: m  except <handles>: handler(e)]. *)
Definition try_except {A} (m : M A) (handles : exn -> bool)
  (handler : exn -> M A) : M A :=
  match m with
  | (Ret a, t) => (Ret a, t)
  | (Raise e, t) =>
      if handles e
      then let '(r, t') := handler e in (r, (t ++ t')%list)
      else (Raise e, t)
  end.

(** [for x in xs: body(x)]. *)
Fixpoint for_each {A} (xs : list A) (body : A -> M unit) : M unit :=
  match xs with
  | [] => ret tt
  | x :: xs' => bind (body x) (fun _ => for_each xs' body)
  end.

(** [sys.exit(code)]. *)
Definition sys_exit {A} (code : Z) : M A := raise (SystemExit code).

(** [print(line)]: the text without the final newline that [print] adds. *)
Definition print (line : string) : M unit := (Ret tt, [Print line]).

(** The lines printed, the files the script wrote itself (path and
    text) and the commands handed to [subprocess.run], in order. *)
Definition stdout (t : trace) : list string :=
  flat_map (fun ev => match ev with Print line => [line] | _ => [] end) t.

Definition files (t : trace) : list (string * string) :=
  flat_map (fun ev => match ev with
                      | WriteFile path text => [(path, text)]
                      | _ => []
                      end) t.

Definition subprocess_calls (t : trace) : list (list string) :=
  flat_map (fun ev => match ev with Subprocess argv => [argv] | _ => [] end) t.

(** The queries sent to the database, by their description. *)
Definition executed (t : trace) : list string :=
  flat_map (fun ev => match ev with Execute d => [d] | _ => [] end) t.

(** The status with which the interpreter leaves when the script body
    ends in [r]: 0 on a normal end, the code of a [SystemExit], 1 after
    the traceback of any other uncaught exception. *)
Definition exit_status {A} (r : res A) : Z :=
  match r with
  | Ret _ => 0
  | Raise (SystemExit code) => code
  | Raise _ => 1
  end%Z.

End Py.

Module PyNotations.
Notation "x <- m ;; k" := (Py.bind m (fun x => k))
  (at level 61, m at next level, right associativity).
Notation "m ;;; k" := (Py.bind m (fun _ => k))
  (at level 61, right associativity).
End PyNotations.

(** ** Python runtime: numbers and their formats *)

Module PyNum.
Import Py.

(** [str(n)] for a non-negative integer. *)
Definition digits (n : Z) : string :=
  NilZero.string_of_uint (N.to_uint (Z.to_N n)).

(** The [,] option of a format specification: the digits in groups of
    three from the right, commas between the groups.  [k] digits are
    left in the group being read. *)
Fixpoint group_from (k : nat) (s : string) : string :=
  match s with
  | EmptyString => EmptyString
  | String c s' =>
      match k with
      | O => String c (match s' with
                       | EmptyString => EmptyString
                       | _ => String "," (group_from 2 s')
                       end)
      | S k' => String c (group_from k' s')
      end
  end.

Definition group_thousands (s : string) : string :=
  group_from ((String.length s + 2) mod 3) s.

Fixpoint repeat_char (c : ascii) (n : nat) : string :=
  match n with
  | O => EmptyString
  | S n' => String c (repeat_char c n')
  end.

(** The zeros before a field of digits ([%m], [%d] and the like, and
    the decimals of a fixed-point format): digits are one byte each. *)
Definition zfill (width : nat) (s : string) : string :=
  repeat_char "0" (width - String.length s) ++ s.

(** [f"{s:<width}"]: spaces after the text up to [width] characters. *)
Definition ljust (width : nat) (s : string) : string :=
  s ++ repeat_char " " (width - len s).

(** [f"{n:,}"] and [f"{n}"] for an [int]. *)
Definition format_int (grouping : bool) (n : Z) : string :=
  let body := digits (Z.abs n) in
  (if (n <? 0)%Z then "-" else "")
    ++ (if grouping then group_thousands body else body).

(** A Python [float] is an IEEE 754 binary64 number. *)
Definition prec : Z := 53.
Definition emax : Z := 1024.
Definition float : Type := spec_float.

(** The float written [m * 2**e] (a literal such as [1234.5]). *)
Definition float_lit (m e : Z) : float := binary_normalize prec emax m e false.

(** A number as the scripts meet it: an [int], a [float], or the
    [Decimal] that the driver returns for a [numeric] column, held as
    the rational it denotes. *)
Inductive number : Type :=
| PInt (n : Z)
| PFloat (f : float)
| PDecimal (q : Q).

(** [float(n)] for an [int]: the nearest float, ties to even;
    [OverflowError] beyond the range. *)
Definition float_of_int (n : Z) : res float :=
  match binary_normalize prec emax n 0 false with
  | S754_infinity _ => Raise (OverflowError "int too large to convert to float")
  | f => Ret f
  end.

(** [float(d)] for a [Decimal]: the float nearest to the quotient. *)
Definition float_of_decimal (q : Q) : float :=
  let nearest (sign : bool) (n : positive) :=
    let '(m, e, l) :=
      SFdiv_core_binary prec emax (Zpos n) 0 (Zpos (Qden q)) 0 in
    binary_round_aux prec emax sign m e l in
  match Qnum q with
  | Z0 => S754_zero false
  | Zpos n => nearest false n
  | Zneg n => nearest true n
  end.

(** [float(value)]. *)
Definition to_float (value : number) : res float :=
  match value with
  | PInt n => float_of_int n
  | PFloat f => Ret f
  | PDecimal q => Ret (float_of_decimal q)
  end.

(** [int(value)]: truncation towards zero. *)
Definition to_int (value : number) : res Z :=
  match value with
  | PInt n => Ret n
  | PFloat S754_nan => Raise (ValueError "cannot convert float NaN to integer")
  | PFloat (S754_infinity _) =>
      Raise (OverflowError "cannot convert float infinity to integer")
  | PFloat (S754_zero _) => Ret 0%Z
  | PFloat (S754_finite s m e) =>
      let magnitude :=
        match e with
        | Zneg p => (Zpos m / 2 ^ Zpos p)%Z
        | _ => (Zpos m * 2 ^ e)%Z
        end in
      Ret (if s then (- magnitude)%Z else magnitude)
  | PDecimal q => Ret (Z.quot (Qnum q) (Zpos (Qden q)))
  end.

(** [bool(value)]. *)
Definition truthy (value : number) : bool :=
  match value with
  | PInt n => negb (n =? 0)%Z
  | PFloat (S754_zero _) => false
  | PFloat _ => true
  | PDecimal q => negb (Qnum q =? 0)%Z
  end.

(** [x * y] and [x / y] on floats, and [a / b] on two [int]s. *)
Definition fmul (x y : float) : float := SFmul prec emax x y.

Definition int_truediv (a b : Z) : res float :=
  if (b =? 0)%Z then Raise (ZeroDivisionError "division by zero")
  else
    match float_of_decimal (Qmake (a * Z.sgn b) (Z.to_pos (Z.abs b))) with
    | S754_infinity _ =>
        Raise (OverflowError "integer division result too large for a float")
    | f => Ret f
    end.

(** [n / d] rounded to the nearest integer, ties to even, [d > 0]. *)
Definition round_half_even (n d : Z) : Z :=
  let q := (n / d)%Z in
  let r := (n mod d)%Z in
  match (2 * r ?= d)%Z with
  | Lt => q
  | Gt => (q + 1)%Z
  | Eq => if Z.even q then q else (q + 1)%Z
  end.

(** The magnitude [m * 2**e] in units of [10**-places], correctly
    rounded: what the [.<places>f] format prints. *)
Definition scaled (places : nat) (m : positive) (e : Z) : Z :=
  let n := (Zpos m * 10 ^ Z.of_nat places)%Z in
  match e with
  | Z0 => n
  | Zpos _ => (n * 2 ^ e)%Z
  | Zneg p => round_half_even n (2 ^ Zpos p)
  end.

Definition fixed_digits (places : nat) (grouping : bool) (n : Z) : string :=
  let unit := (10 ^ Z.of_nat places)%Z in
  let int_part := digits (n / unit) in
  (if grouping then group_thousands int_part else int_part)
    ++ match places with
       | O => ""
       | _ => "." ++ zfill places (digits (n mod unit))
       end.

(** [f"{f:.<places>f}"], with the [,] option when [grouping]. *)
Definition format_f (places : nat) (grouping : bool) (f : float) : string :=
  match f with
  | S754_nan => "nan"
  | S754_infinity s => (if s then "-" else "") ++ "inf"
  | S754_zero s => (if s then "-" else "") ++ fixed_digits places grouping 0
  | S754_finite s m e =>
      (if s then "-" else "") ++ fixed_digits places grouping (scaled places m e)
  end.

(** ASCII letters and their cases. *)
Definition is_upper (c : ascii) : bool :=
  Nat.leb 65 (nat_of_ascii c) && Nat.leb (nat_of_ascii c) 90.

Definition is_lower (c : ascii) : bool :=
  Nat.leb 97 (nat_of_ascii c) && Nat.leb (nat_of_ascii c) 122.

Definition to_upper (c : ascii) : ascii :=
  if is_lower c then ascii_of_nat (nat_of_ascii c - 32) else c.

Definition to_lower (c : ascii) : ascii :=
  if is_upper c then ascii_of_nat (nat_of_ascii c + 32) else c.

(** [s.title()] for an ASCII text: a letter after a letter is lowered,
    any other letter is raised.  The cases of the letters beyond ASCII
    are not modelled: the properties that read the letters of a title
    are stated for ASCII names. *)
Fixpoint title_from (after_letter : bool) (s : string) : string :=
  match s with
  | EmptyString => EmptyString
  | String c s' =>
      if is_upper c || is_lower c
      then String (if after_letter then to_lower c else to_upper c)
                  (title_from true s')
      else String c (title_from false s')
  end.

Definition title (s : string) : string := title_from false s.

(** A [datetime] and the two [strftime] formats of the report. *)
Record datetime : Type := {
  year : Z; month : Z; day : Z; hour : Z; minute : Z; second : Z
}.

(** [d.strftime('%Y-%m')], for a year of four digits. *)
Definition strftime_Y_m (d : datetime) : string :=
  zfill 4 (digits (year d)) ++ "-" ++ zfill 2 (digits (month d)).

(** [d.strftime('%Y-%m-%d %H:%M:%S')], for a year of four digits. *)
Definition strftime_full (d : datetime) : string :=
  strftime_Y_m d ++ "-" ++ zfill 2 (digits (day d)) ++ " "
    ++ zfill 2 (digits (hour d)) ++ ":" ++ zfill 2 (digits (minute d)) ++ ":"
    ++ zfill 2 (digits (second d)).

End PyNum.

(** ** generate_erd.py *)

Module GenerateErd.
Import Py PyNotations.

(** A row of the schema query: [row[0]] is the kind (['TABLES'] or
    ['RELATIONSHIPS']), [row[1]] the name, [row[2]] the details. *)
Definition schema_row : Type := string * string * string.

Definition row0 (row : schema_row) : string := fst (fst row).
Definition row1 (row : schema_row) : string := snd (fst row).
Definition row2 (row : schema_row) : string := snd row.

(** The row that the query of [generate_erd_sql] returns for a table:
    [SELECT 'TABLES' as type, table_name as name, columns as details]. *)
Definition table_row (table_name columns : string) : schema_row :=
  ("TABLES", table_name, columns).

(** The row that the query of [generate_erd_sql] returns for a foreign key:
    [SELECT 'RELATIONSHIPS' as type, from_table || '->' || to_table as name,
            from_column || '->' || to_column as details]. *)
Definition relationship_row (from_table from_column to_table to_column : string)
  : schema_row :=
  ("RELATIONSHIPS", from_table ++ "->" ++ to_table,
   from_column ++ "->" ++ to_column).

(** [f'  {table_name} [label="{table_name}|{columns}\\l", shape=record];'] *)
Definition node_line (table_name columns : string) : string :=
  "  " ++ table_name ++ " [label=" ++ DQ ++ table_name ++ "|" ++ columns
       ++ "\l" ++ DQ ++ ", shape=record];".

(** [f'  {from_table} -> {to_table};'] *)
Definition edge_line (from_table to_table : string) : string :=
  "  " ++ from_table ++ " -> " ++ to_table ++ ";".

(** The body of the loop of [generate_dot_content], on the two lists
    [tables] and [relationships] it appends to. *)
Definition dot_step (acc : list string * list string) (row : schema_row)
  : list string * list string :=
  let '(tables, relationships) := acc in
  if row0 row =? "TABLES" then
    let table_name := row1 row in
    let columns := replace (row2 row) LF "\l" in
    ((tables ++ [node_line table_name columns])%list, relationships)
  else if row0 row =? "RELATIONSHIPS" then
    let rel_parts := split (row1 row) "->" in
    match rel_parts with
    | [from_table; to_table] =>
        (tables, (relationships ++ [edge_line from_table to_table])%list)
    | _ => (tables, relationships)
    end
  else (tables, relationships).

Definition dot_lines (schema_data : list schema_row)
  : list string * list string :=
  fold_left dot_step schema_data ([], []).

Definition dot_header : string :=
  "digraph ERD {" ++ LF ++
  "  rankdir=TB;" ++ LF ++
  "  node [fontname=" ++ DQ ++ "Arial" ++ DQ ++ ", fontsize=10];" ++ LF ++
  "  edge [fontname=" ++ DQ ++ "Arial" ++ DQ ++ ", fontsize=8];" ++ LF ++
  "  " ++ LF ++
  "  // Define table styling" ++ LF ++
  "  node [shape=record, style=filled, fillcolor=lightblue];" ++ LF ++
  "  " ++ LF.

Definition dot_relationships_header : string :=
  LF ++
  LF ++
  "  // Define relationships" ++ LF ++
  "  edge [arrowhead=crow];" ++ LF ++
  "  " ++ LF.

Definition generate_dot_content (schema_data : list schema_row) : string :=
  let '(tables, relationships) := dot_lines schema_data in
  dot_header ++ join LF tables ++ dot_relationships_header
    ++ join LF relationships ++ LF ++ "}".

(** *** The process and its surroundings *)

(** What [subprocess.run(argv)] meets: no such binary
    ([FileNotFoundError]); a binary that the system does not start
    (another [OSError]: [PermissionError] for a file that is not
    executable, [NotADirectoryError], ...); or a process that ends with
    a return code. *)
Inductive proc_result : Type :=
| NotFound
| NotStarted
| Exited (returncode : Z).

(** What the script finds around it.  [environ] and [database] are there
    although no function on the path of [main] reads them. *)
Record host : Type := {
  psycopg2_importable : bool;
  run_process : list string -> proc_result;
  can_open_for_writing : string -> bool;
  str_CalledProcessError : list string -> Z -> string;
  environ : string -> option string;
  database : list schema_row
}.

(** [subprocess.run(argv, check=check)]: the return code, or
    [FileNotFoundError], or another [OSError], or with [check=True] and
    a non-zero return code [CalledProcessError]. *)
Definition subprocess_run (h : host) (argv : list string) (check : bool)
  : M Z :=
  match run_process h argv with
  | NotFound => (Raise FileNotFoundError, [Subprocess argv])
  | NotStarted => (Raise OSError, [Subprocess argv])
  | Exited rc =>
      if check && negb (rc =? 0)%Z
      then (Raise (CalledProcessError rc (str_CalledProcessError h argv rc)),
            [Subprocess argv])
      else (Ret rc, [Subprocess argv])
  end.

(** [with open(path, 'w') as f: f.write(text)]. *)
Definition write_file (h : host) (path text : string) : M unit :=
  if can_open_for_writing h path
  then (Ret tt, [WriteFile path text])
  else (Raise OSError, []).

Definition graphviz_hint : string :=
  "✗ Graphviz not found. Install with: apt-get install graphviz (Ubuntu) or brew install graphviz (Mac)".

Definition is_FileNotFoundError (e : exn) : bool :=
  match e with FileNotFoundError => true | _ => false end.

Definition is_CalledProcessError (e : exn) : bool :=
  match e with CalledProcessError _ _ => true | _ => false end.

Definition check_dependencies (h : host) : M bool :=
  (* the value of has_psycopg2 is never read *)
  (if psycopg2_importable h
   then print "✓ psycopg2 found"
   else
     print "✗ psycopg2 not found. Install with: pip install psycopg2-binary" ;;;
     print "ℹ Will generate static ERD without database connection") ;;;
  try_except
    (returncode <- subprocess_run h ["dot"; "-V"] false ;;
     if (returncode =? 0)%Z
     then print "✓ Graphviz found" ;;; ret true
     else print graphviz_hint ;;; ret false)
    is_FileNotFoundError
    (fun _ => print graphviz_hint ;;; ret false).

(** The literal that [main] assigns to [dot_content]. *)
Definition static_dot_content : string :=
  "digraph ERD {" ++ LF ++
  "  rankdir=TB;" ++ LF ++
  "  node [fontname=" ++ DQ ++ "Arial" ++ DQ ++ ", fontsize=10];" ++ LF ++
  "  edge [fontname=" ++ DQ ++ "Arial" ++ DQ ++ ", fontsize=8];" ++ LF ++
  "  " ++ LF ++
  "  // Define table styling" ++ LF ++
  "  node [shape=record, style=filled, fillcolor=lightblue];" ++ LF ++
  "  " ++ LF ++
  "  users [label=" ++ DQ ++
    "users|id UUID PK\lemail VARCHAR(255)\lcreated_at TIMESTAMP\lactivated_at TIMESTAMP\llast_login_at TIMESTAMP\lstatus user_status\lsignup_channel signup_channel\lcountry_code VARCHAR(2)\lutm_source VARCHAR(100)\lutm_medium VARCHAR(100)\lutm_campaign VARCHAR(100)\lreferred_by_user_id UUID" ++
    DQ ++ ", shape=record];" ++ LF ++
  "  " ++ LF ++
  "  plans [label=" ++ DQ ++
    "plans|id SERIAL PK\lname plan_type\lprice_monthly DECIMAL(10,2)\lprice_annual DECIMAL(10,2)\lmax_projects INTEGER\lmax_team_members INTEGER\lfeatures JSONB" ++
    DQ ++ ", shape=record];" ++ LF ++
  "  " ++ LF ++
  "  subscriptions [label=" ++ DQ ++
    "subscriptions|id UUID PK\luser_id UUID\lplan_id INTEGER\lstatus subscription_status\lbilling_cycle billing_cycle\lstarted_at TIMESTAMP\lended_at TIMESTAMP\lcancelled_at TIMESTAMP\lmrr DECIMAL(10,2)\lcreated_at TIMESTAMP" ++
    DQ ++ ", shape=record];" ++ LF ++
  "  " ++ LF ++
  "  projects [label=" ++ DQ ++
    "projects|id UUID PK\luser_id UUID\lname VARCHAR(255)\lcreated_at TIMESTAMP\lcompleted_at TIMESTAMP\lis_active BOOLEAN" ++
    DQ ++ ", shape=record];" ++ LF ++
  "  " ++ LF ++
  "  tasks [label=" ++ DQ ++
    "tasks|id UUID PK\lproject_id UUID\luser_id UUID\ltitle VARCHAR(500)\lcreated_at TIMESTAMP\lcompleted_at TIMESTAMP\lis_completed BOOLEAN" ++
    DQ ++ ", shape=record];" ++ LF ++
  "  " ++ LF ++
  "  team_memberships [label=" ++ DQ ++
    "team_memberships|id UUID PK\linviter_user_id UUID\linvited_user_id UUID\lproject_id UUID\linvited_at TIMESTAMP\laccepted_at TIMESTAMP\lrole VARCHAR(50)" ++
    DQ ++ ", shape=record];" ++ LF ++
  "  " ++ LF ++
  "  revenue_events [label=" ++ DQ ++
    "revenue_events|id UUID PK\luser_id UUID\lsubscription_id UUID\lamount DECIMAL(10,2)\levent_type VARCHAR(50)\loccurred_at TIMESTAMP\lstripe_payment_id VARCHAR(255)" ++
    DQ ++ ", shape=record];" ++ LF ++
  "  " ++ LF ++
  "  user_activities [label=" ++ DQ ++
    "user_activities|id UUID PK\luser_id UUID\lactivity_type VARCHAR(100)\lmetadata JSONB\loccurred_at TIMESTAMP" ++
    DQ ++ ", shape=record];" ++ LF ++
  "  " ++ LF ++
  "  funnel_events [label=" ++ DQ ++
    "funnel_events|id UUID PK\luser_id UUID\levent_name VARCHAR(100)\loccurred_at TIMESTAMP\lsession_id VARCHAR(255)\lpage_url VARCHAR(500)" ++
    DQ ++ ", shape=record];" ++ LF ++
  LF ++
  "  // Define relationships" ++ LF ++
  "  edge [arrowhead=crow];" ++ LF ++
  "  " ++ LF ++
  "  subscriptions -> users [label=" ++ DQ ++ "user_id" ++ DQ ++ "];" ++ LF ++
  "  subscriptions -> plans [label=" ++ DQ ++ "plan_id" ++ DQ ++ "];" ++ LF ++
  "  projects -> users [label=" ++ DQ ++ "user_id" ++ DQ ++ "];" ++ LF ++
  "  tasks -> projects [label=" ++ DQ ++ "project_id" ++ DQ ++ "];" ++ LF ++
  "  tasks -> users [label=" ++ DQ ++ "user_id" ++ DQ ++ "];" ++ LF ++
  "  team_memberships -> users [label=" ++ DQ ++ "inviter_user_id" ++ DQ ++
    "];" ++ LF ++
  "  team_memberships -> users [label=" ++ DQ ++ "invited_user_id" ++ DQ ++
    "];" ++ LF ++
  "  team_memberships -> projects [label=" ++ DQ ++ "project_id" ++ DQ ++
    "];" ++ LF ++
  "  revenue_events -> users [label=" ++ DQ ++ "user_id" ++ DQ ++ "];" ++
    LF ++
  "  revenue_events -> subscriptions [label=" ++ DQ ++ "subscription_id" ++
    DQ ++ "];" ++ LF ++
  "  user_activities -> users [label=" ++ DQ ++ "user_id" ++ DQ ++ "];" ++
    LF ++
  "  funnel_events -> users [label=" ++ DQ ++ "user_id" ++ DQ ++ "];" ++ LF ++
  "  users -> users [label=" ++ DQ ++ "referred_by_user_id" ++ DQ ++ "];" ++
    LF ++
  "}".

Definition png_command : list string :=
  ["dot"; "-Tpng"; "schema_diagram.dot"; "-o"; "schema_diagram.png"].

Definition svg_command : list string :=
  ["dot"; "-Tsvg"; "schema_diagram.dot"; "-o"; "schema_diagram.svg"].

Definition main (h : host) : M unit :=
  print "🔧 Checking dependencies..." ;;;
  has_graphviz <- check_dependencies h ;;
  (if negb has_graphviz
   then print "❌ Cannot generate diagrams without Graphviz" ;;; sys_exit 1
   else ret tt) ;;;
  print (LF ++ "📊 Generating Entity Relationship Diagram...") ;;;
  let dot_content := static_dot_content in
  write_file h "schema_diagram.dot" dot_content ;;;
  print "✓ Generated schema_diagram.dot" ;;;
  try_except
    (subprocess_run h png_command true ;;;
     print "✓ Generated schema_diagram.png" ;;;
     subprocess_run h svg_command true ;;;
     print "✓ Generated schema_diagram.svg" ;;;
     print (LF ++ "🎉 Schema diagrams generated successfully!") ;;;
     print "📁 Files created:" ;;;
     print "   - schema_diagram.dot (Graphviz source)" ;;;
     print "   - schema_diagram.png (Image)" ;;;
     print "   - schema_diagram.svg (Scalable vector)")
    (fun e => is_CalledProcessError e || is_FileNotFoundError e)
    (fun e =>
       match e with
       | CalledProcessError _ _ =>
           print ("✗ Error generating diagram: " ++ str_exn e) ;;;
           print "Make sure Graphviz is installed and the 'dot' command is available" ;;;
           sys_exit 1
       | _ =>
           print "✗ 'dot' command not found. Please install Graphviz" ;;;
           sys_exit 1
       end).

(** Running the script: the exit status of the process and what it did. *)
Definition run (h : host) : Z * trace :=
  let '(r, t) := main h in (exit_status r, t).

(** *** Reading the builder's output

    The node and edge declarations that [generate_dot_content] emits are
    the entries of [tables] and [relationships]; the definitions below
    name the rows they come from and the identifiers they carry. *)

Definition is_table (row : schema_row) : bool := row0 row =? "TABLES".

Definition is_relationship (row : schema_row) : bool :=
  negb (row0 row =? "TABLES") && (row0 row =? "RELATIONSHIPS").

Definition table_rows (schema_data : list schema_row) : list schema_row :=
  filter is_table schema_data.

Definition relationship_rows (schema_data : list schema_row) : list schema_row :=
  filter is_relationship schema_data.

(** The node declaration of a table row and its identifier. *)
Definition node_of (row : schema_row) : string :=
  node_line (row1 row) (replace (row2 row) LF "\l").


(** The endpoints of the edge that a relationship row yields, if any. *)
Definition edge_of (row : schema_row) : list (string * string) :=
  match split (row1 row) "->" with
  | [from_table; to_table] => [(from_table, to_table)]
  | _ => []
  end.

Definition edges (schema_data : list schema_row) : list (string * string) :=
  flat_map edge_of (relationship_rows schema_data).

Definition edge_decl (e : string * string) : string :=
  edge_line (fst e) (snd e).








(** *** Hosts

    The condition of a missing renderer, and three concrete hosts. *)

(** The renderer is missing: [dot -V] meets no binary, or ends with a
    non-zero return code. *)
Definition renderer_missing (h : host) : Prop :=
  run_process h ["dot"; "-V"] = NotFound \/
  exists returncode,
    run_process h ["dot"; "-V"] = Exited returncode /\ returncode <> 0%Z.

(** A host on which everything is in place. *)
Definition ready_host : host :=
  {| psycopg2_importable := true;
     run_process := fun _ => Exited 0;
     can_open_for_writing := fun _ => true;
     str_CalledProcessError := fun _ _ => "";
     environ := fun _ => None;
     database := [] |}.

(** A host without the renderer, with a database and a variable set. *)
Definition bare_host : host :=
  {| psycopg2_importable := false;
     run_process := fun _ => NotFound;
     can_open_for_writing := fun _ => true;
     str_CalledProcessError := fun _ _ => "";
     environ := fun name => if (name =? "PGHOST") then Some "db" else None;
     database := [table_row "users" "id uuid"] |}.

(** A second host in which everything is in place, with another
    environment and another database. *)
Definition other_ready_host : host :=
  {| psycopg2_importable := false;
     run_process := fun _ => Exited 0;
     can_open_for_writing := fun _ => true;
     str_CalledProcessError := fun _ _ => "";
     environ := fun name => if (name =? "PGHOST") then Some "db" else None;
     database := [table_row "accounts" "id integer NOT NULL PK";
                  relationship_row "accounts" "owner" "accounts" "id"] |}.

(** *** Runs of the script

    The conditions that decide a run, and hosts on which one step
    fails. *)

(** Everything that a run needs is in place: the version query and the
    two rendering commands end with code 0, and the graph description
    can be opened for writing. *)
Definition all_in_place (h : host) : Prop :=
  run_process h ["dot"; "-V"] = Exited 0 /\
  can_open_for_writing h "schema_diagram.dot" = true /\
  run_process h png_command = Exited 0 /\
  run_process h svg_command = Exited 0.

(** Two hosts with the same renderer and the same file system. *)
Definition same_renderer_and_files (h1 h2 : host) : Prop :=
  (forall argv, run_process h1 argv = run_process h2 argv) /\
  (forall path, can_open_for_writing h1 path = can_open_for_writing h2 path).

(** The command does not end with code 0: there is no such binary, the
    binary is not started, or the process ends with another code. *)
Definition command_fails (h : host) (argv : list string) : Prop :=
  run_process h argv <> Exited 0.

(** What the run has done before it renders: the dependencies checked
    and the graph description written. *)
Definition written_trace (h : host) : trace :=
  ([Print "🔧 Checking dependencies..."]
   ++ (if psycopg2_importable h
       then [Print "✓ psycopg2 found"]
       else [Print "✗ psycopg2 not found. Install with: pip install psycopg2-binary";
             Print "ℹ Will generate static ERD without database connection"])
   ++ [Subprocess ["dot"; "-V"];
       Print "✓ Graphviz found";
       Print (LF ++ "📊 Generating Entity Relationship Diagram...");
       WriteFile "schema_diagram.dot" static_dot_content;
       Print "✓ Generated schema_diagram.dot"])%list.

Definition same_command (a b : list string) : bool :=
  (String.concat " " a =? String.concat " " b).

(** A host whose renderer answers the version query and then fails on
    the given command with code 1. *)
Definition failing_on (command : list string) : host :=
  {| psycopg2_importable := true;
     run_process := fun argv =>
                      if same_command argv command then Exited 1 else Exited 0;
     can_open_for_writing := fun _ => true;
     str_CalledProcessError := fun _ _ => "non-zero exit status 1";
     environ := fun _ => None;
     database := [] |}.

(** A host with the renderer, in a directory that cannot be written. *)
Definition read_only_host : host :=
  {| psycopg2_importable := true;
     run_process := fun _ => Exited 0;
     can_open_for_writing := fun _ => false;
     str_CalledProcessError := fun _ _ => "";
     environ := fun _ => None;
     database := [] |}.

End GenerateErd.

(** ** quick_dashboard.py *)

Module QuickDashboard.
Import Py PyNotations PyNum.

(** *** The database, as the script meets it *)

(** What [cur.execute(query); cur.fetchall()] meets: the rows, a
    [psycopg2.Error] with its text, or an interrupt from the keyboard
    while the call blocks. *)
Inductive answer (row : Type) : Type :=
| Fetched (rows : list row)
| Failed (msg : string)
| Interrupted.
Arguments Fetched {row} rows.
Arguments Failed {row} msg.
Arguments Interrupted {row}.

(** The rows of the queries, a field per column label, typed as the
    driver returns the column: [COUNT] is an [int], a [numeric] is a
    [Decimal], a column that may be [NULL] is an [option]. *)
Module CountRow.
Record t : Type := { count : Z }.
End CountRow.

Module MrrRow.
Record t : Type := { total_mrr : option Q }.
End MrrRow.

Module ConversionRow.
Record t : Type := { conversion_rate : option Q }.
End ConversionRow.

Module PlanRow.
Record t : Type := {
  plan : option string;
  transactions : Z;
  revenue : option Q
}.
End PlanRow.

Module GrowthRow.
Record t : Type := {
  month : datetime;
  new_users : Z;
  activated_users : Z
}.
End GrowthRow.

Module ChannelRow.
Record t : Type := {
  signup_channel : option string;
  total_signups : Z;
  paid_conversions : Z;
  conversion_rate : option Q
}.
End ChannelRow.

Record db_config : Type := {
  host : string;
  port : string;
  database : string;
  user : string;
  password : string
}.

(** What the script finds around it: the variables of the environment,
    what [psycopg2.connect] meets for a configuration ([Some] text of
    the [psycopg2.Error], or [None] when the connection opens), the
    clock, and the answer of the database to each query of the report. *)
Record world : Type := {
  psycopg2_importable : bool;
  environ : string -> option string;
  connect_error : db_config -> option string;
  now : datetime;
  active_users : answer CountRow.t;
  paid_subs : answer CountRow.t;
  mrr : answer MrrRow.t;
  conversion : answer ConversionRow.t;
  plan_revenue : answer PlanRow.t;
  growth_data : answer GrowthRow.t;
  channel_data : answer ChannelRow.t;
  recent_signups : answer CountRow.t;
  recent_upgrades : answer CountRow.t;
  recent_churn : answer CountRow.t;
  projects_created : answer CountRow.t
}.

(** [os.getenv(name, default)]. *)
Definition getenv (w : world) (name default : string) : string :=
  match environ w name with
  | Some value => value
  | None => default
  end.

Definition DB_CONFIG (w : world) : db_config :=
  {| host := getenv w "PGHOST" "localhost";
     port := getenv w "PGPORT" "5432";
     database := getenv w "PGDATABASE" "saas_analytics_demo";
     user := getenv w "PGUSER" "saas_user";
     password := getenv w "PGPASSWORD" "demo_password" |}.

(** *** The functions of the script *)

Definition connect_db (w : world) : M unit :=
  match connect_error w (DB_CONFIG w) with
  | None => ret tt
  | Some e =>
      print ("❌ Database connection failed: " ++ e) ;;;
      print (LF ++ "Try running: ./setup_database.sh") ;;;
      sys_exit 1
  end.

(** [execute_query(conn, query, description)]: the query is given by
    the answer that the database makes to it. *)
Definition execute_query {row} (query : answer row) (description : string)
  : M (list row) :=
  match query with
  | Fetched rows => (Ret rows, [Execute description])
  | Failed e =>
      (Ret tt, [Execute description]) ;;;
      print ("❌ Query failed (" ++ description ++ "): " ++ e) ;;;
      ret []
  | Interrupted => (Raise KeyboardInterrupt, [Execute description])
  end.

Definition format_currency (amount : option number) : res string :=
  match amount with
  | None => Ret "$0.00"
  | Some amount =>
      match to_float amount with
      | Ret f => Ret ("$" ++ format_f 2 true f)
      | Raise e => Raise e
      end
  end.

Definition format_percentage (value : option number) : res string :=
  match value with
  | None => Ret "0.00%"
  | Some value =>
      match to_float value with
      | Ret f => Ret (format_f 2 false f ++ "%")
      | Raise e => Raise e
      end
  end.

Definition format_number (value : option number) : res string :=
  match value with
  | None => Ret "0"
  | Some value =>
      match to_int value with
      | Ret n => Ret (format_int true n)
      | Raise e => Raise e
      end
  end.

Definition rule : string := repeat_char "=" 60.

Definition print_header (title : string) : M unit :=
  print (LF ++ rule) ;;;
  print ("📊 " ++ title) ;;;
  print rule.

(** [print_metric(label, value, unit="")]; no call of the report passes
    [unit] (here [unit'], the name of a type being taken), so each one
    is written with the default. *)
Definition print_metric (label value unit' : string) : M unit :=
  print ("  " ++ ljust 35 label ++ " " ++ value ++ unit').

(** [rows[0]['count'] if rows else 0], printed as a number under
    [label]: the shape of the six count metrics. *)
Definition count_metric (query : answer CountRow.t) (description label : string)
  : M unit :=
  rows <- execute_query query description ;;
  text <- lift (format_number
                  (Some (PInt match rows with
                              | row :: _ => CountRow.count row
                              | [] => 0%Z
                              end))) ;;
  print_metric label text "".

(** [# Current MRR] *)
Definition current_mrr (w : world) : M unit :=
  mrr <- execute_query (mrr w) "Current MRR" ;;
  let mrr_value :=
    match mrr with
    | row :: _ =>
        match MrrRow.total_mrr row with
        | Some total => if truthy (PDecimal total) then PDecimal total else PInt 0
        | None => PInt 0
        end
    | [] => PInt 0
    end in
  monthly <- lift (format_currency (Some mrr_value)) ;;
  print_metric "Monthly Recurring Revenue" monthly "" ;;;
  float_mrr <- lift (to_float mrr_value) ;;
  annual <- lift (format_currency (Some (PFloat (fmul float_mrr (float_lit 12 0))))) ;;
  print_metric "Annual Recurring Revenue" annual "".

(** [# Conversion rate] *)
Definition conversion_rate (w : world) : M unit :=
  conversion <- execute_query (conversion w) "Conversion rate" ;;
  let conv_rate :=
    match conversion with
    | row :: _ =>
        match ConversionRow.conversion_rate row with
        | Some rate => if truthy (PDecimal rate) then PDecimal rate else PInt 0
        | None => PInt 0
        end
    | [] => PInt 0
    end in
  text <- lift (format_percentage (Some conv_rate)) ;;
  print_metric "Free-to-Paid Conversion" text "".

Definition no_attribute (name : string) : exn :=
  AttributeError ("'NoneType' object has no attribute '" ++ name ++ "'").

(** [# Revenue by Plan] *)
Definition revenue_by_plan (w : world) : M unit :=
  print_header "Revenue by Plan (Last 30 Days)" ;;;
  plan_revenue <- execute_query (plan_revenue w) "Plan revenue" ;;
  for_each plan_revenue (fun row =>
    plan_name <- match PlanRow.plan row with
                 | Some plan => ret (title plan)
                 | None => raise (no_attribute "title")
                 end ;;
    transactions <- lift (format_number (Some (PInt (PlanRow.transactions row)))) ;;
    revenue <- lift (format_currency (option_map PDecimal (PlanRow.revenue row))) ;;
    print_metric (plan_name ++ " Plan")
                 (revenue ++ " (" ++ transactions ++ " transactions)") "").

(** [# User Growth] *)
Definition user_growth (w : world) : M unit :=
  print_header "User Growth (Last 6 Months)" ;;;
  growth_data <- execute_query (growth_data w) "User growth" ;;
  for_each growth_data (fun row =>
    let month := strftime_Y_m (GrowthRow.month row) in
    new_users <- lift (format_number (Some (PInt (GrowthRow.new_users row)))) ;;
    activated <- lift (format_number (Some (PInt (GrowthRow.activated_users row)))) ;;
    activation_rate <-
      (if (GrowthRow.new_users row >? 0)%Z
       then
         ratio <- lift (int_truediv (GrowthRow.activated_users row)
                                    (GrowthRow.new_users row)) ;;
         ret (fmul ratio (float_lit 100 0))
       else lift (float_of_int 0)) ;;
    print_metric month
                 (new_users ++ " signups, " ++ activated ++ " activated ("
                    ++ format_f 1 false activation_rate ++ "%)") "").

(** [# Top Performing Channels] *)
Definition top_channels (w : world) : M unit :=
  print_header "Top Performing Acquisition Channels" ;;;
  channel_data <- execute_query (channel_data w) "Channel performance" ;;
  for_each channel_data (fun row =>
    channel <- match ChannelRow.signup_channel row with
               | Some name => ret (title (replace name "_" " "))
               | None => raise (no_attribute "replace")
               end ;;
    signups <- lift (format_number (Some (PInt (ChannelRow.total_signups row)))) ;;
    conversions <- lift (format_number (Some (PInt (ChannelRow.paid_conversions row)))) ;;
    rate <- lift (format_percentage
                    (option_map PDecimal (ChannelRow.conversion_rate row))) ;;
    print_metric channel
                 (signups ++ " signups → " ++ conversions ++ " paid (" ++ rate ++ ")") "").

(** [# Recent Activity] *)
Definition recent_activity (w : world) : M unit :=
  print_header "Recent Activity (Last 7 Days)" ;;;
  count_metric (recent_signups w) "Recent signups" "New Signups" ;;;
  count_metric (recent_upgrades w) "Recent upgrades" "New Paid Subscriptions" ;;;
  count_metric (recent_churn w) "Recent churn" "Cancelled Subscriptions" ;;;
  count_metric (projects_created w) "Projects created" "Projects Created".

Definition generate_dashboard (w : world) : M unit :=
  print "🚀 SaaS Analytics Dashboard" ;;;
  print ("Generated at: " ++ strftime_full (now w)) ;;;
  connect_db w ;;;
  print_header "Key Metrics Overview" ;;;
  count_metric (active_users w) "Active users" "Active Users" ;;;
  count_metric (paid_subs w) "Paid subscribers" "Paid Subscribers" ;;;
  current_mrr w ;;;
  conversion_rate w ;;;
  revenue_by_plan w ;;;
  user_growth w ;;;
  top_channels w ;;;
  recent_activity w ;;;
  (Ret tt, [CloseConnection]) ;;;
  print (LF ++ rule) ;;;
  print "✅ Dashboard generated successfully!" ;;;
  print (LF ++ "💡 Tips:") ;;;
  print "  • Run analytics queries in analytics_queries.sql for detailed analysis" ;;;
  print "  • Check schema_diagram.png for database structure" ;;;
  print "  • Use pgAdmin or psql for interactive querying" ;;;
  print (rule ++ LF).

Definition is_KeyboardInterrupt (e : exn) : bool :=
  match e with KeyboardInterrupt => true | _ => false end.

(** The script: the guarded import, then the [__main__] block. *)
Definition main (w : world) : M unit :=
  if psycopg2_importable w then
    try_except (generate_dashboard w)
      (fun e => is_KeyboardInterrupt e || is_Exception e)
      (fun e =>
         match e with
         | KeyboardInterrupt =>
             print (LF ++ LF ++ "👋 Dashboard generation cancelled.") ;;;
             sys_exit 0
         | _ =>
             print (LF ++ "❌ Unexpected error: " ++ str_exn e) ;;;
             sys_exit 1
         end)
  else
    print "❌ psycopg2 not found. Install with: pip install psycopg2-binary" ;;;
    sys_exit 1.

(** Running the script: the exit status of the process and its trace. *)
Definition run (w : world) : Z * trace :=
  let '(r, t) := main w in (exit_status r, t).

(** *** The two queries whose arithmetic the report depends on

    [NULL] is [None].  A [numeric] value is a decimal number: an integer
    and the number of its digits that stand after the point, its display
    scale.  The driver hands it to the script as a [Decimal], which the
    script only converts and tests: a row holds the rational that the
    value denotes. *)

Module Sql.

Record numeric : Type := { unscaled : Z; dscale : nat }.

(** The number that a [numeric] denotes. *)
Definition value (x : numeric) : Q :=
  Qmake (unscaled x) (Z.to_pos (10 ^ Z.of_nat (dscale x))).

(** An [integer] or [bigint] read as a [numeric]. *)
Definition of_integer (n : Z) : numeric := {| unscaled := n; dscale := 0 |}.

(** [x * y] on [numeric]: the exact product, the scales adding up. *)
Definition multiply (x y : numeric) : numeric :=
  {| unscaled := unscaled x * unscaled y; dscale := dscale x + dscale y |}.

(** The server keeps a [numeric] in digits of base 10000.  [weight] is
    the power of 10000 that the first non-zero digit counts and
    [first_digit] that digit; both are 0 for zero. *)
Definition decimal_digits (n : Z) : Z :=
  Z.of_nat (Decimal.nb_digits (N.to_uint (Z.to_N n))).

Definition weight (x : numeric) : Z :=
  if (unscaled x =? 0)%Z then 0%Z
  else ((decimal_digits (Z.abs (unscaled x)) - 1 - Z.of_nat (dscale x)) / 4)%Z.

Definition first_digit (x : numeric) : Z :=
  let shift := (Z.of_nat (dscale x) + 4 * weight x)%Z in
  if (0 <=? shift)%Z then (Z.abs (unscaled x) / 10 ^ shift)%Z
  else (Z.abs (unscaled x) * 10 ^ (- shift))%Z.

(** One unit of the last decimal at a scale. *)
Definition unit_of_scale (scale : nat) : Q :=
  Qmake 1 (Z.to_pos (10 ^ Z.of_nat scale)).

(** The scale of a quotient: enough for 16 significant digits, judged
    from the first digits of the operands, and not less than the scale
    of either operand; at most 1000. *)
Definition select_div_scale (x y : numeric) : nat :=
  let qweight :=
    (weight x - weight y
     - (if (first_digit x <=? first_digit y)%Z then 1 else 0))%Z in
  let rscale := (16 - qweight * 4)%Z in
  Z.to_nat
    (Z.min (Z.max (Z.max (Z.max rscale (Z.of_nat (dscale x)))
                         (Z.of_nat (dscale y)))
                  0)
           1000).

(** [n / d] rounded to the nearest integer, ties away from zero. *)
Definition round_half_away (n d : Z) : Z :=
  (Z.sgn n * Z.sgn d * ((2 * Z.abs n + Z.abs d) / (2 * Z.abs d)))%Z.

(** [x / y] on [numeric], for [y] other than zero: the quotient
    rounded at the scale of [select_div_scale]. *)
Definition div_var (x y : numeric) : numeric :=
  let rscale := select_div_scale x y in
  {| unscaled :=
       round_half_away (unscaled x * 10 ^ Z.of_nat (dscale y + rscale))
                       (unscaled y * 10 ^ Z.of_nat (dscale x));
     dscale := rscale |}.

Record subscription : Type := {
  user_id : Z;
  plan_id : Z;
  status : string;
  billing_cycle : string;
  mrr : option numeric
}.

Record user : Type := { id : Z }.

(** [SUM(x)]: the sum of the values that are not [NULL], [NULL] when
    there is none; sums of [numeric] are exact. *)
Fixpoint SUM (values : list (option Q)) : option Q :=
  match values with
  | [] => None
  | None :: rest => SUM rest
  | Some v :: rest =>
      Some match SUM rest with
           | Some total => (v + total)%Q
           | None => v
           end
  end.

(** [CASE WHEN billing_cycle = 'monthly' THEN mrr
          WHEN billing_cycle = 'annual' THEN mrr / 12
          ELSE mrr END] *)
Definition monthly_amount (s : subscription) : option numeric :=
  if billing_cycle s =? "monthly" then mrr s
  else if billing_cycle s =? "annual"
       then option_map (fun amount => div_var amount (of_integer 12)) (mrr s)
       else mrr s.

Definition is_active (s : subscription) : bool := status s =? "active".

(** [SELECT SUM(CASE ... END) as total_mrr FROM subscriptions
     WHERE status = 'active'] *)
Definition total_mrr (subscriptions : list subscription) : option Q :=
  SUM (map (fun s => option_map value (monthly_amount s))
           (filter is_active subscriptions)).

(** [total if total else 0], the figure that the report prints. *)
Definition or_zero (total : option Q) : Q :=
  match total with
  | Some v => v
  | None => 0%Q
  end.

Definition current_mrr_query (subscriptions : list subscription)
  : answer MrrRow.t :=
  Fetched [ {| MrrRow.total_mrr := total_mrr subscriptions |} ].

(** [NULLIF(a, b)]. *)
Definition NULLIF (a b : Z) : option Z :=
  if (a =? b)%Z then None else Some a.

(** [x / y] on [numeric]: [NULL] when an operand is, the error
    [division by zero] when [y] is zero. *)
Definition divide (x y : option numeric) : string + option numeric :=
  match x, y with
  | Some x, Some y =>
      if (unscaled y =? 0)%Z then inl "division by zero"
      else inr (Some (div_var x y))
  | _, _ => inr None
  end.

(** [paid_users * 100.0 / NULLIF(total_users, 0)]: the count times the
    [numeric] 100.0, divided by the count that [NULLIF] lets through. *)
Definition conversion_rate_expr (paid_users total_users : Z)
  : string + option Q :=
  match divide (Some (multiply (of_integer paid_users)
                               {| unscaled := 1000; dscale := 1 |}))
               (option_map of_integer (NULLIF total_users 0)) with
  | inl e => inl e
  | inr rate => inr (option_map value rate)
  end.

(** [SELECT ... as conversion_rate FROM conversion_data] *)
Definition conversion_of (paid_users total_users : Z)
  : answer ConversionRow.t :=
  match conversion_rate_expr paid_users total_users with
  | inl e => Failed e
  | inr rate => Fetched [ {| ConversionRow.conversion_rate := rate |} ]
  end.

(** [FROM users u LEFT JOIN subscriptions s
     ON u.id = s.user_id AND s.status = 'active'] *)
Definition joined (users : list user) (subscriptions : list subscription)
  : list (user * option subscription) :=
  flat_map
    (fun u =>
       match filter (fun s => (id u =? user_id s)%Z && is_active s)
                    subscriptions with
       | [] => [(u, None)]
       | matches => map (fun s => (u, Some s)) matches
       end)
    users.

Definition COUNT_DISTINCT (values : list (option Z)) : Z :=
  Z.of_nat
    (List.length
       (nodup Z.eq_dec
              (flat_map (fun v => match v with Some z => [z] | None => [] end)
                        values))).

(** [COUNT(DISTINCT u.id) as total_users] *)
Definition total_users (users : list user) (subscriptions : list subscription)
  : Z :=
  COUNT_DISTINCT (map (fun row => Some (id (fst row))) (joined users subscriptions)).

(** [COUNT(DISTINCT CASE WHEN s.plan_id != 1 THEN u.id END) as paid_users] *)
Definition paid_users (users : list user) (subscriptions : list subscription)
  : Z :=
  COUNT_DISTINCT
    (map (fun row =>
            match snd row with
            | Some s => if negb (plan_id s =? 1)%Z then Some (id (fst row)) else None
            | None => None
            end)
         (joined users subscriptions)).

Definition conversion_query (users : list user)
  (subscriptions : list subscription) : answer ConversionRow.t :=
  conversion_of (paid_users users subscriptions) (total_users users subscriptions).

End Sql.

(** *** The catalog of queries *)

Inductive query : Type :=
| ActiveUsers | PaidSubs | CurrentMrr | ConversionRate | PlanRevenue
| UserGrowth | ChannelPerformance
| RecentSignups | RecentUpgrades | RecentChurn | ProjectsCreated.

(** The queries in the order in which [generate_dashboard] sends them. *)
Definition catalog : list query :=
  [ActiveUsers; PaidSubs; CurrentMrr; ConversionRate; PlanRevenue;
   UserGrowth; ChannelPerformance;
   RecentSignups; RecentUpgrades; RecentChurn; ProjectsCreated].

(** The name under which a query is reported. *)
Definition description (q : query) : string :=
  match q with
  | ActiveUsers => "Active users"
  | PaidSubs => "Paid subscribers"
  | CurrentMrr => "Current MRR"
  | ConversionRate => "Conversion rate"
  | PlanRevenue => "Plan revenue"
  | UserGrowth => "User growth"
  | ChannelPerformance => "Channel performance"
  | RecentSignups => "Recent signups"
  | RecentUpgrades => "Recent upgrades"
  | RecentChurn => "Recent churn"
  | ProjectsCreated => "Projects created"
  end.

(** The query fails in [w], with the text [msg]. *)
Definition fails (w : world) (q : query) (msg : string) : Prop :=
  match q with
  | ActiveUsers => active_users w = Failed msg
  | PaidSubs => paid_subs w = Failed msg
  | CurrentMrr => mrr w = Failed msg
  | ConversionRate => conversion w = Failed msg
  | PlanRevenue => plan_revenue w = Failed msg
  | UserGrowth => growth_data w = Failed msg
  | ChannelPerformance => channel_data w = Failed msg
  | RecentSignups => recent_signups w = Failed msg
  | RecentUpgrades => recent_upgrades w = Failed msg
  | RecentChurn => recent_churn w = Failed msg
  | ProjectsCreated => projects_created w = Failed msg
  end.

(** The part of [generate_dashboard] that sends the query and prints its
    results. *)
Definition section_of (q : query) (w : world) : M unit :=
  match q with
  | ActiveUsers => count_metric (active_users w) "Active users" "Active Users"
  | PaidSubs => count_metric (paid_subs w) "Paid subscribers" "Paid Subscribers"
  | CurrentMrr => current_mrr w
  | ConversionRate => conversion_rate w
  | PlanRevenue => revenue_by_plan w
  | UserGrowth => user_growth w
  | ChannelPerformance => top_channels w
  | RecentSignups =>
      count_metric (recent_signups w) "Recent signups" "New Signups"
  | RecentUpgrades =>
      count_metric (recent_upgrades w) "Recent upgrades" "New Paid Subscriptions"
  | RecentChurn =>
      count_metric (recent_churn w) "Recent churn" "Cancelled Subscriptions"
  | ProjectsCreated =>
      count_metric (projects_created w) "Projects created" "Projects Created"
  end.

(** The diagnostic that [execute_query] prints for a failed query. *)
Definition diagnostic (q : query) (msg : string) : string :=
  "❌ Query failed (" ++ description q ++ "): " ++ msg.

(** A computation ends without an exception. *)
Definition completes {A} (m : M A) : Prop := exists a, fst m = Ret a.

(** The line of a metric. *)
Definition metric_line (label value : string) : string :=
  "  " ++ ljust 35 label ++ " " ++ value.

(** The events of [print_header(title)]. *)
Definition header_events (title : string) : trace :=
  [Print (LF ++ rule); Print ("📊 " ++ title); Print rule].

(** The trace of a report in which the connection opens and no section
    raises: the events of the sections, in the order of the catalog,
    between the fixed lines. *)
Definition assembled (w : world) : trace :=
  ([Print "🚀 SaaS Analytics Dashboard";
    Print ("Generated at: " ++ strftime_full (now w))]
   ++ header_events "Key Metrics Overview"
   ++ snd (section_of ActiveUsers w)
   ++ snd (section_of PaidSubs w)
   ++ snd (section_of CurrentMrr w)
   ++ snd (section_of ConversionRate w)
   ++ snd (section_of PlanRevenue w)
   ++ snd (section_of UserGrowth w)
   ++ snd (section_of ChannelPerformance w)
   ++ header_events "Recent Activity (Last 7 Days)"
   ++ snd (section_of RecentSignups w)
   ++ snd (section_of RecentUpgrades w)
   ++ snd (section_of RecentChurn w)
   ++ snd (section_of ProjectsCreated w)
   ++ [CloseConnection;
       Print (LF ++ rule);
       Print "✅ Dashboard generated successfully!";
       Print (LF ++ "💡 Tips:");
       Print "  • Run analytics queries in analytics_queries.sql for detailed analysis";
       Print "  • Check schema_diagram.png for database structure";
       Print "  • Use pgAdmin or psql for interactive querying";
       Print (rule ++ LF)])%list.

(** The six count metrics of the report: the query of each and the
    label of its line. *)
Definition count_metrics : list (query * string) :=
  [(ActiveUsers, "Active Users");
   (PaidSubs, "Paid Subscribers");
   (RecentSignups, "New Signups");
   (RecentUpgrades, "New Paid Subscriptions");
   (RecentChurn, "Cancelled Subscriptions");
   (ProjectsCreated, "Projects Created")].

(** A computation that sends no query. *)
Definition silent {A} (m : M A) : Prop := executed (snd m) = [].

(** Event [b] comes right after event [a] in the trace. *)
Definition follows (t : trace) (a b : event) : Prop :=
  exists before after, t = (before ++ a :: b :: after)%list.

(** A world in which the driver is installed, the connection opens and
    every query fails. *)
Definition broken_world : world :=
  {| psycopg2_importable := true;
     environ := fun _ => None;
     connect_error := fun _ => None;
     now := {| year := 2024; month := 3; day := 9;
               hour := 7; minute := 5; second := 0 |};
     active_users := Failed "relation does not exist";
     paid_subs := Failed "relation does not exist";
     mrr := Failed "relation does not exist";
     conversion := Failed "relation does not exist";
     plan_revenue := Failed "relation does not exist";
     growth_data := Failed "relation does not exist";
     channel_data := Failed "relation does not exist";
     recent_signups := Failed "relation does not exist";
     recent_upgrades := Failed "relation does not exist";
     recent_churn := Failed "relation does not exist";
     projects_created := Failed "relation does not exist" |}.

(** An empty database: every count is zero, every sum [NULL]. *)
Definition empty_world : world :=
  {| psycopg2_importable := true;
     environ := fun _ => None;
     connect_error := fun _ => None;
     now := {| year := 2024; month := 3; day := 9;
               hour := 7; minute := 5; second := 0 |};
     active_users := Fetched [ {| CountRow.count := 0 |} ];
     paid_subs := Fetched [ {| CountRow.count := 0 |} ];
     mrr := Sql.current_mrr_query [];
     conversion := Sql.conversion_query [] [];
     plan_revenue := Fetched [];
     growth_data := Fetched [];
     channel_data := Fetched [];
     recent_signups := Fetched [ {| CountRow.count := 0 |} ];
     recent_upgrades := Fetched [ {| CountRow.count := 0 |} ];
     recent_churn := Fetched [ {| CountRow.count := 0 |} ];
     projects_created := Fetched [ {| CountRow.count := 0 |} ] |}.

(** The empty database, except that the first query fails. *)
Definition first_query_fails : world :=
  {| psycopg2_importable := true;
     environ := fun _ => None;
     connect_error := fun _ => None;
     now := now empty_world;
     active_users := Failed "relation does not exist";
     paid_subs := paid_subs empty_world;
     mrr := mrr empty_world;
     conversion := conversion empty_world;
     plan_revenue := plan_revenue empty_world;
     growth_data := growth_data empty_world;
     channel_data := channel_data empty_world;
     recent_signups := recent_signups empty_world;
     recent_upgrades := recent_upgrades empty_world;
     recent_churn := recent_churn empty_world;
     projects_created := projects_created empty_world |}.

(** *** The report, step by step *)

(** The place of a query in the catalog, and the queries before it. *)
Definition index (q : query) : nat :=
  match q with
  | ActiveUsers => 0 | PaidSubs => 1 | CurrentMrr => 2 | ConversionRate => 3
  | PlanRevenue => 4 | UserGrowth => 5 | ChannelPerformance => 6
  | RecentSignups => 7 | RecentUpgrades => 8 | RecentChurn => 9
  | ProjectsCreated => 10
  end.

Definition before (q : query) : list query := firstn (index q) catalog.

(** The call of the query is interrupted from the keyboard. *)
Definition interrupted (w : world) (q : query) : Prop :=
  match q with
  | ActiveUsers => active_users w = Interrupted
  | PaidSubs => paid_subs w = Interrupted
  | CurrentMrr => mrr w = Interrupted
  | ConversionRate => conversion w = Interrupted
  | PlanRevenue => plan_revenue w = Interrupted
  | UserGrowth => growth_data w = Interrupted
  | ChannelPerformance => channel_data w = Interrupted
  | RecentSignups => recent_signups w = Interrupted
  | RecentUpgrades => recent_upgrades w = Interrupted
  | RecentChurn => recent_churn w = Interrupted
  | ProjectsCreated => projects_created w = Interrupted
  end.

(** The header that [generate_dashboard] prints on its own before the
    section of a query (the three sections with a loop print theirs
    themselves). *)
Definition header_before (q : query) : trace :=
  match q with
  | ActiveUsers => header_events "Key Metrics Overview"
  | RecentSignups => header_events "Recent Activity (Last 7 Days)"
  | _ => []
  end.

(** What the report has printed when the connection is open. *)
Definition opening (w : world) : trace :=
  [Print "🚀 SaaS Analytics Dashboard";
   Print ("Generated at: " ++ strftime_full (now w))].

(** The events of the sections of the queries [qs], each after its
    header. *)
Definition sections_trace (w : world) (qs : list query) : trace :=
  flat_map (fun q => header_before q ++ snd (section_of q w))%list qs.

(** The events of the report up to and including the section of [q],
    when the sections before it do not raise. *)
Definition trace_through (w : world) (q : query) : trace :=
  (opening w ++ sections_trace w (before q ++ [q]))%list.

(** The sections of the queries [qs] one after the other, each after
    its header: the part of [generate_dashboard] between the opening of
    the connection and its closing is [run_sections w catalog]. *)
Fixpoint run_sections (w : world) (qs : list query) : M unit :=
  match qs with
  | [] => ret tt
  | q :: qs' =>
      (Ret tt, header_before q) ;;; section_of q w ;;; run_sections w qs'
  end.

(** What the report does once its last section is printed. *)
Definition closing : trace :=
  [CloseConnection;
   Print (LF ++ rule);
   Print "✅ Dashboard generated successfully!";
   Print (LF ++ "💡 Tips:");
   Print "  • Run analytics queries in analytics_queries.sql for detailed analysis";
   Print "  • Check schema_diagram.png for database structure";
   Print "  • Use pgAdmin or psql for interactive querying";
   Print (rule ++ LF)].

(** The line with which the report answers an exception that it did
    not expect, and the one for an interrupt. *)
Definition unexpected_line (e : exn) : string :=
  LF ++ "❌ Unexpected error: " ++ str_exn e.

Definition cancelled_line : string :=
  LF ++ LF ++ "👋 Dashboard generation cancelled.".

(** A computation that does not close the connection. *)
Definition keeps_open {A} (m : M A) : Prop := ~ In CloseConnection (snd m).

(** A computation that raises no exception but the [allowed] ones. *)
Definition raises_only {A} (allowed : exn -> Prop) (m : M A) : Prop :=
  forall e, fst m = Raise e -> allowed e.

Definition no_ZeroDivisionError (e : exn) : Prop :=
  match e with ZeroDivisionError _ => False | _ => True end.

Definition no_SystemExit (e : exn) : Prop :=
  match e with SystemExit _ => False | _ => True end.

(** *** Rows and lines *)

(** [format_currency] of a [numeric] column that may be [NULL]. *)
Definition currency_text (amount : option Q) : string :=
  match amount with
  | None => "$0.00"
  | Some q => "$" ++ format_f 2 true (float_of_decimal q)
  end.

(** The line of a plan row under the name [plan_name]. *)
Definition plan_line (plan_name : string) (row : PlanRow.t) : string :=
  metric_line (title plan_name ++ " Plan")
              (currency_text (PlanRow.revenue row) ++ " ("
                 ++ format_int true (PlanRow.transactions row)
                 ++ " transactions)").

Definition plan_lines (rows : list PlanRow.t) : list string :=
  flat_map (fun row => match PlanRow.plan row with
                       | Some plan_name => [plan_line plan_name row]
                       | None => []
                       end) rows.

Definition has_plan (row : PlanRow.t) : Prop := PlanRow.plan row <> None.

Definition has_channel (row : ChannelRow.t) : Prop :=
  ChannelRow.signup_channel row <> None.

(** Two sums that are both [NULL], or both the same amount. *)
Definition same_total (a b : option Q) : Prop :=
  match a, b with
  | Some x, Some y => (x == y)%Q
  | None, None => True
  | _, _ => False
  end.

(** *** More worlds *)

(** The empty database behind a server that refuses the connection. *)
Definition unreachable_world : world :=
  {| psycopg2_importable := true;
     environ := fun _ => None;
     connect_error := fun _ => Some "connection refused";
     now := now empty_world;
     active_users := active_users empty_world;
     paid_subs := paid_subs empty_world;
     mrr := mrr empty_world;
     conversion := conversion empty_world;
     plan_revenue := plan_revenue empty_world;
     growth_data := growth_data empty_world;
     channel_data := channel_data empty_world;
     recent_signups := recent_signups empty_world;
     recent_upgrades := recent_upgrades empty_world;
     recent_churn := recent_churn empty_world;
     projects_created := projects_created empty_world |}.

(** The empty database, with an interrupt during the growth query. *)
Definition interrupted_world : world :=
  {| psycopg2_importable := true;
     environ := fun _ => None;
     connect_error := fun _ => None;
     now := now empty_world;
     active_users := active_users empty_world;
     paid_subs := paid_subs empty_world;
     mrr := mrr empty_world;
     conversion := conversion empty_world;
     plan_revenue := plan_revenue empty_world;
     growth_data := Interrupted;
     channel_data := channel_data empty_world;
     recent_signups := recent_signups empty_world;
     recent_upgrades := recent_upgrades empty_world;
     recent_churn := recent_churn empty_world;
     projects_created := projects_created empty_world |}.

Definition named_channel : ChannelRow.t :=
  {| ChannelRow.signup_channel := Some "paid_search";
     ChannelRow.total_signups := 1200;
     ChannelRow.paid_conversions := 30;
     ChannelRow.conversion_rate := Some (250 # 100)%Q |}.

Definition unnamed_channel : ChannelRow.t :=
  {| ChannelRow.signup_channel := None;
     ChannelRow.total_signups := 7;
     ChannelRow.paid_conversions := 0;
     ChannelRow.conversion_rate := Some (0 # 100)%Q |}.

(** The empty database, except for the payments of two plans, the
    second of which sums to [NULL]. *)
Definition plans_world : world :=
  {| psycopg2_importable := true;
     environ := fun _ => None;
     connect_error := fun _ => None;
     now := now empty_world;
     active_users := active_users empty_world;
     paid_subs := paid_subs empty_world;
     mrr := mrr empty_world;
     conversion := conversion empty_world;
     plan_revenue :=
       Fetched [ {| PlanRow.plan := Some "pro";
                    PlanRow.transactions := 1234;
                    PlanRow.revenue := Some (3578766 # 100)%Q |};
                 {| PlanRow.plan := Some "starter";
                    PlanRow.transactions := 2;
                    PlanRow.revenue := None |} ];
     growth_data := growth_data empty_world;
     channel_data := channel_data empty_world;
     recent_signups := recent_signups empty_world;
     recent_upgrades := recent_upgrades empty_world;
     recent_churn := recent_churn empty_world;
     projects_created := projects_created empty_world |}.

(** The empty database, except for two channels, the second of which
    has no name (users whose [signup_channel] is [NULL]). *)
Definition null_channel_world : world :=
  {| psycopg2_importable := true;
     environ := fun _ => None;
     connect_error := fun _ => None;
     now := now empty_world;
     active_users := active_users empty_world;
     paid_subs := paid_subs empty_world;
     mrr := mrr empty_world;
     conversion := conversion empty_world;
     plan_revenue := plan_revenue empty_world;
     growth_data := growth_data empty_world;
     channel_data := Fetched [named_channel; unnamed_channel];
     recent_signups := recent_signups empty_world;
     recent_upgrades := recent_upgrades empty_world;
     recent_churn := recent_churn empty_world;
     projects_created := projects_created empty_world |}.

(** *** Two runs side by side *)

(** The count query answers with one row, of the count [n]. *)
Definition counts (w : world) (q : query) (n : Z) : Prop :=
  match q with
  | ActiveUsers => active_users w = Fetched [ {| CountRow.count := n |} ]
  | PaidSubs => paid_subs w = Fetched [ {| CountRow.count := n |} ]
  | RecentSignups => recent_signups w = Fetched [ {| CountRow.count := n |} ]
  | RecentUpgrades => recent_upgrades w = Fetched [ {| CountRow.count := n |} ]
  | RecentChurn => recent_churn w = Fetched [ {| CountRow.count := n |} ]
  | ProjectsCreated =>
      projects_created w = Fetched [ {| CountRow.count := n |} ]
  | _ => False
  end.

(** The database gives the same answer to the query in both worlds. *)
Definition same_answer (w w' : world) (q : query) : Prop :=
  match q with
  | ActiveUsers => active_users w = active_users w'
  | PaidSubs => paid_subs w = paid_subs w'
  | CurrentMrr => mrr w = mrr w'
  | ConversionRate => conversion w = conversion w'
  | PlanRevenue => plan_revenue w = plan_revenue w'
  | UserGrowth => growth_data w = growth_data w'
  | ChannelPerformance => channel_data w = channel_data w'
  | RecentSignups => recent_signups w = recent_signups w'
  | RecentUpgrades => recent_upgrades w = recent_upgrades w'
  | RecentChurn => recent_churn w = recent_churn w'
  | ProjectsCreated => projects_created w = projects_created w'
  end.

(** The same driver, the same answer of the server to the connection,
    the same clock. *)
Definition same_surroundings (w w' : world) : Prop :=
  psycopg2_importable w = psycopg2_importable w' /\
  connect_error w (DB_CONFIG w) = connect_error w' (DB_CONFIG w') /\
  now w = now w'.

(** The queries that the report sends after [q]. *)
Definition later (q : query) : list query := skipn (S (index q)) catalog.

(** How the script ends once its sections have ended in [r]: the
    events that follow -- the closing of the report, or the line of the
    handler in the [__main__] block -- and the exit status. *)
Definition ending (r : res unit) : Z * trace :=
  match r with
  | Ret _ => (0%Z, closing)
  | Raise KeyboardInterrupt => (0%Z, [Print cancelled_line])
  | Raise (SystemExit code) => (code, [])
  | Raise e => (1%Z, [Print (unexpected_line e)])
  end.

(** What is printed before the section of [q], when the sections
    before it do not raise. *)
Definition printed_before (w : world) (q : query) : list string :=
  stdout (opening w ++ sections_trace w (before q) ++ header_before q)%list.

(** The row has a plan name, made of ASCII characters. *)
Definition has_ascii_plan (row : PlanRow.t) : Prop :=
  exists name, PlanRow.plan row = Some name /\ isascii name = true.

End QuickDashboard.

(** * Properties of the diagram pipeline *)

Section SplitFacts.
Import Py.

Lemma append_empty_r (s : string) : s ++ "" = s.
Proof. induction s as [|c s IH]; simpl; [reflexivity | now rewrite IH]. Qed.

Lemma append_assoc (a b c : string) : (a ++ b) ++ c = a ++ (b ++ c).
Proof. induction a as [|x a IH]; simpl; [reflexivity | now rewrite IH]. Qed.

Lemma contains_tail sep c s :
  contains sep (String c s) = false -> contains sep s = false.
Proof.
  cbn [contains]. intros H. apply orb_false_iff in H. exact (proj2 H).
Qed.

Lemma contains_head sep s : contains sep s = false -> prefix sep s = false.
Proof.
  destruct s; cbn [contains]; intros H; apply orb_false_iff in H; exact (proj1 H).
Qed.


Lemma split_from_hit sep cur c s :
  prefix sep (String c s) = true ->
  split_from sep 0 cur (String c s)
  = cur :: split_from sep (String.length sep - 1)%nat "" s.
Proof. intros H. cbn [split_from]. now rewrite H. Qed.

Lemma split_from_miss sep cur c s :
  prefix sep (String c s) = false ->
  split_from sep 0 cur (String c s) = split_from sep 0 (cur ++ String c "") s.
Proof. intros H. cbn [split_from]. now rewrite H. Qed.

(** A text without the separator is one part. *)
Lemma split_from_absent sep s : forall cur,
  contains sep s = false -> split_from sep 0 cur s = [cur ++ s].
Proof.
  induction s as [|c s IH]; intros cur H.
  - cbn [split_from]. now rewrite append_empty_r.
  - rewrite (split_from_miss _ _ _ _ (contains_head _ _ H)).
    rewrite (IH _ (contains_tail _ _ _ H)).
    now rewrite append_assoc.
Qed.




End SplitFacts.

Section BuilderFacts.
Import Py GenerateErd.
Local Open Scope list_scope.

(** The loop of the builder, read row by row: a table row adds its node
    declaration, a relationship row adds the edge declarations of
    [edge_of], any other row adds nothing. *)
Lemma dot_step_spec tables relationships row :
  dot_step (tables, relationships) row
  = (tables ++ (if is_table row then [node_of row] else []),
     relationships ++
       (if is_relationship row then map edge_decl (edge_of row) else [])).
Proof.
  unfold dot_step, is_table, is_relationship, edge_of, node_of.
  destruct (row0 row =? "TABLES")%string; cbn [negb andb].
  - now rewrite app_nil_r.
  - destruct (row0 row =? "RELATIONSHIPS")%string.
    + destruct (split (row1 row) "->") as [|a [|b [|c l]]];
        cbn [map]; rewrite ?app_nil_r; reflexivity.
    + now rewrite !app_nil_r.
Qed.

Lemma fold_dot_step schema_data : forall tables relationships,
  fold_left dot_step schema_data (tables, relationships)
  = (tables ++ map node_of (table_rows schema_data),
     relationships ++ map edge_decl (edges schema_data)).
Proof.
  unfold edges, table_rows, relationship_rows.
  induction schema_data as [|row rows IH]; intros tables relationships.
  - cbn. now rewrite !app_nil_r.
  - cbn [fold_left]. rewrite dot_step_spec, IH. cbn [filter].
    destruct (is_table row), (is_relationship row);
      cbn [map flat_map app]; rewrite ?map_app, ?app_nil_r, <- ?app_assoc;
      reflexivity.
Qed.

Lemma dot_lines_spec schema_data :
  dot_lines schema_data
  = (map node_of (table_rows schema_data),
     map edge_decl (edges schema_data)).
Proof. unfold dot_lines. now rewrite fold_dot_step. Qed.

Lemma dot_lines_app xs ys :
  dot_lines (xs ++ ys)
  = (fst (dot_lines xs) ++ fst (dot_lines ys),
     snd (dot_lines xs) ++ snd (dot_lines ys)).
Proof.
  rewrite !dot_lines_spec. unfold edges, table_rows, relationship_rows.
  cbn [fst snd]. now rewrite !filter_app, flat_map_app, !map_app.
Qed.

(** Every table row yields its node declaration, whatever the input. *)
Lemma node_count schema_data :
  List.length (fst (dot_lines schema_data))
  = List.length (table_rows schema_data).
Proof. rewrite dot_lines_spec. cbn [fst]. now rewrite length_map. Qed.

(** The edge declarations are those of the relationship rows whose name
    splits into exactly two parts; the other relationship rows are
    skipped. *)
Lemma edge_count schema_data :
  List.length (snd (dot_lines schema_data))
  = List.length
      (filter (fun row => (List.length (split (row1 row) "->") =? 2)%nat)
              (relationship_rows schema_data)).
Proof.
  rewrite dot_lines_spec. cbn [snd]. rewrite length_map. unfold edges.
  induction (relationship_rows schema_data) as [|row rows IH];
    [reflexivity|].
  cbn [flat_map filter]. rewrite length_app, IH. unfold edge_of.
  destruct (split (row1 row) "->") as [|a [|b [|c l]]]; reflexivity.
Qed.



End BuilderFacts.

Section BuilderClaims.
Import Py GenerateErd.
Local Open Scope list_scope.






(** Outside the identifiers: the self-reference of a table whose name
    holds the separator is read as four parts and skipped. *)
Lemma self_reference_dropped :
  let row := relationship_row "a->b" "parent_id" "a->b" "id" in
  row1 row = "a->b->a->b" /\
  split (row1 row) "->" = ["a"; "b"; "a"; "b"] /\
  snd (dot_lines [row]) = [].
Proof. cbv zeta. repeat split; reflexivity. Qed.







End BuilderClaims.

Section DiagramPipelineClaims.
Import Py GenerateErd.
Local Open Scope list_scope.

(** C8: without the renderer the pipeline prints the installation hint
    and leaves with status 1; it has written no file, and the version
    query is the only command it ever handed to [subprocess.run], so no
    image was rendered. *)
Theorem main_without_renderer (h : host) :
  renderer_missing h ->
  fst (run h) = 1%Z /\
  fst (run h) <> 0%Z /\
  In graphviz_hint (stdout (snd (run h))) /\
  files (snd (run h)) = [] /\
  subprocess_calls (snd (run h)) = [["dot"; "-V"]] /\
  ~ In png_command (subprocess_calls (snd (run h))) /\
  ~ In svg_command (subprocess_calls (snd (run h))).
Proof.
  intros Hmissing.
  assert (E : run h
              = (1%Z,
                 [Print "🔧 Checking dependencies..."]
                   ++ (if psycopg2_importable h
                       then [Print "✓ psycopg2 found"]
                       else [Print "✗ psycopg2 not found. Install with: pip install psycopg2-binary";
                             Print "ℹ Will generate static ERD without database connection"])
                   ++ [Subprocess ["dot"; "-V"];
                       Print graphviz_hint;
                       Print "❌ Cannot generate diagrams without Graphviz"])).
  { unfold run, main, check_dependencies, bind, try_except, subprocess_run,
      print, sys_exit, raise, ret.
    destruct Hmissing as [-> | (rc & -> & Hrc)].
    - destruct (psycopg2_importable h); reflexivity.
    - cbn [andb]. apply Z.eqb_neq in Hrc. rewrite Hrc.
      destruct (psycopg2_importable h); reflexivity. }
  rewrite E. cbn [fst snd].
  destruct (psycopg2_importable h); cbn; repeat split;
    try discriminate; try tauto;
    intros [H | []]; discriminate H.
Qed.

Lemma main_without_renderer_witness :
  renderer_missing bare_host /\ fst (run bare_host) = 1%Z.
Proof.
  assert (H : renderer_missing bare_host) by (left; reflexivity).
  split; [exact H | exact (proj1 (main_without_renderer bare_host H))].
Defined.

(** What a run that ends with status 0 has written itself. *)
Lemma successful_run_files (h : host) :
  fst (run h) = 0%Z ->
  files (snd (run h)) = [("schema_diagram.dot", static_dot_content)].
Proof.
  unfold run, main, check_dependencies, bind, try_except, subprocess_run,
    write_file, print, sys_exit, raise, ret.
  destruct (psycopg2_importable h);
    (destruct (run_process h ["dot"; "-V"]) as [| |rc];
     cbn [andb negb is_FileNotFoundError app exit_status fst snd];
     [discriminate|discriminate|];
     destruct (rc =? 0)%Z;
     cbn [negb app exit_status fst snd];
     [|discriminate];
     destruct (can_open_for_writing h "schema_diagram.dot");
     cbn [app exit_status fst snd];
     [|discriminate];
     destruct (run_process h png_command) as [| |rc1];
     cbn [app andb negb orb exit_status fst snd
          is_FileNotFoundError is_CalledProcessError];
     [discriminate|discriminate|];
     destruct (rc1 =? 0)%Z;
     cbn [app andb negb orb exit_status fst snd
          is_FileNotFoundError is_CalledProcessError];
     [|discriminate];
     destruct (run_process h svg_command) as [| |rc2];
     cbn [app andb negb orb exit_status fst snd
          is_FileNotFoundError is_CalledProcessError];
     [discriminate|discriminate|];
     destruct (rc2 =? 0)%Z;
     cbn [app andb negb orb exit_status fst snd
          is_FileNotFoundError is_CalledProcessError];
     [reflexivity | discriminate]).
Qed.

(** No run of the script sends a query: [main] never calls
    [generate_erd_sql] or [generate_dot_content], and opens no
    connection. *)
Lemma main_sends_no_query (h : host) : executed (snd (run h)) = [].
Proof.
  unfold run, main, check_dependencies, bind, try_except, subprocess_run,
    write_file, print, sys_exit, raise, ret.
  repeat (cbn [app andb negb orb exit_status fst snd executed
               is_FileNotFoundError is_CalledProcessError];
          match goal with
          | |- context [psycopg2_importable h] =>
              destruct (psycopg2_importable h)
          | |- context [run_process h ?c] =>
              destruct (run_process h c) as [| |?]
          | |- context [Z.eqb ?r 0] => destruct (Z.eqb r 0)
          | |- context [can_open_for_writing h ?f] =>
              destruct (can_open_for_writing h f)
          end);
    reflexivity.
Qed.

(** C9: whatever the hosts of two successful runs -- their environment
    variables, their databases, the rest -- both runs write the same
    single file, [schema_diagram.dot], holding the literal
    [static_dot_content]; nothing of the host reaches the text, and
    neither run sends a query to a database. *)
Theorem main_output_fixed (h1 h2 : host) :
  fst (run h1) = 0%Z -> fst (run h2) = 0%Z ->
  files (snd (run h1)) = [("schema_diagram.dot", static_dot_content)] /\
  files (snd (run h1)) = files (snd (run h2)) /\
  executed (snd (run h1)) = [] /\ executed (snd (run h2)) = [].
Proof.
  intros H1 H2.
  rewrite (successful_run_files h1 H1), (successful_run_files h2 H2).
  repeat split; apply main_sends_no_query.
Qed.

Lemma main_output_fixed_witness :
  fst (run ready_host) = 0%Z /\ fst (run other_ready_host) = 0%Z /\
  files (snd (run ready_host)) = files (snd (run other_ready_host)).
Proof.
  assert (H1 : fst (run ready_host) = 0%Z) by reflexivity.
  assert (H2 : fst (run other_ready_host) = 0%Z) by reflexivity.
  split; [exact H1|]. split; [exact H2|].
  exact (proj1 (proj2 (main_output_fixed ready_host other_ready_host H1 H2))).
Defined.

End DiagramPipelineClaims.

(** * Properties of the metrics pipeline *)

Section RevenueClaims.
Import Py PyNum QuickDashboard.
Local Open Scope list_scope.

(** One more value under [SUM]: the total grows by it, and is not
    [NULL]. *)
Lemma SUM_insert (before after : list (option Q)) (v : Q) :
  (Sql.or_zero (Sql.SUM (before ++ Some v :: after))
   == Sql.or_zero (Sql.SUM (before ++ after)) + v)%Q
  /\ Sql.SUM (before ++ Some v :: after) <> None.
Proof.
  induction before as [|[x|] before [IH Hsome]]; cbn [app Sql.SUM].
  - split; [|discriminate].
    destruct (Sql.SUM after); cbn [Sql.or_zero]; ring.
  - split; [|discriminate].
    destruct (Sql.SUM (before ++ Some v :: after)) as [t|]; [|now elim Hsome].
    cbn [Sql.or_zero] in *.
    destruct (Sql.SUM (before ++ after)); cbn [Sql.or_zero] in *;
      rewrite IH; ring.
  - now split.
Qed.

Lemma total_mrr_insert (before after : list Sql.subscription)
  (s : Sql.subscription) (amount : Sql.numeric) :
  Sql.status s = "active"%string -> Sql.monthly_amount s = Some amount ->
  (Sql.or_zero (Sql.total_mrr (before ++ s :: after))
   == Sql.or_zero (Sql.total_mrr (before ++ after)) + Sql.value amount)%Q.
Proof.
  intros Hactive Hamount. unfold Sql.total_mrr.
  rewrite !filter_app. cbn [filter]. unfold Sql.is_active at 2.
  rewrite Hactive. cbn [String.eqb Ascii.eqb Bool.eqb].
  rewrite !map_app. cbn [map]. rewrite Hamount.
  apply SUM_insert.
Qed.

(** The rounding of a quotient: the result is within half a unit of the
    quotient, and is the quotient when the division leaves no rest. *)
Lemma round_half_away_close (n d : Z) :
  (0 < d)%Z -> (Z.abs (2 * (d * Sql.round_half_away n d - n)) <= d)%Z.
Proof.
  intros Hd. unfold Sql.round_half_away.
  rewrite (Z.abs_eq d), (Z.sgn_pos d) by lia.
  pose proof (Z.div_mod (2 * Z.abs n + d) (2 * d) ltac:(lia)) as Hdiv.
  pose proof (Z.mod_pos_bound (2 * Z.abs n + d) (2 * d) ltac:(lia)) as Hmod.
  set (q := ((2 * Z.abs n + d) / (2 * d))%Z) in *.
  destruct (Z.sgn_spec n) as [[Hn ->] | [[Hn ->] | [Hn ->]]]; lia.
Qed.

Lemma round_half_away_exact (d k : Z) :
  (0 < d)%Z -> Sql.round_half_away (d * k) d = k.
Proof.
  intros Hd. unfold Sql.round_half_away.
  rewrite (Z.abs_eq d), (Z.sgn_pos d), Z.abs_mul, (Z.abs_eq d) by lia.
  replace (2 * (d * Z.abs k) + d)%Z with (d + Z.abs k * (2 * d))%Z by ring.
  rewrite Z.div_add, Z.div_small by lia.
  rewrite Z.sgn_mul, (Z.sgn_pos d) by lia.
  destruct (Z.sgn_spec k) as [[Hk ->] | [[Hk ->] | [Hk ->]]]; lia.
Qed.

Lemma pow10_pos (n : nat) : (0 < 10 ^ Z.of_nat n)%Z.
Proof. apply Z.pow_pos_nonneg; lia. Qed.

(** The quotient of a [numeric] by the integer 12, in units of the
    scale of the result. *)
Lemma div_var_12 (A : Sql.numeric) :
  let amount := Sql.div_var A (Sql.of_integer 12) in
  Sql.unscaled amount
  = Sql.round_half_away
      (Sql.unscaled A * 10 ^ Z.of_nat (Sql.dscale amount))
      (12 * 10 ^ Z.of_nat (Sql.dscale A)).
Proof. reflexivity. Qed.

(** C1 (amended): an active subscription with the stored amount [A]
    adds [A] itself to the monthly total when its billing cycle is
    ['monthly'].  When it is ['annual'] it adds the quotient of the
    [numeric] division [A / 12]: the rational [A / 12] rounded at the
    scale that the server chooses for the quotient -- within half a unit
    of that scale of [A / 12], and [A / 12] itself when that has no
    more decimals than the scale. *)
Theorem mrr_contribution (before after : list Sql.subscription)
  (s : Sql.subscription) (A : Sql.numeric) :
  Sql.status s = "active"%string -> Sql.mrr s = Some A ->
  (Sql.billing_cycle s = "annual"%string ->
   let amount := Sql.div_var A (Sql.of_integer 12) in
   Sql.monthly_amount s = Some amount /\
   (Sql.or_zero (Sql.total_mrr (before ++ s :: after))
    == Sql.or_zero (Sql.total_mrr (before ++ after)) + Sql.value amount)%Q /\
   (Qabs (Sql.value amount - Sql.value A / 12)
    <= (1 # 2) * Sql.unit_of_scale (Sql.dscale amount))%Q /\
   (forall k : Z,
      (Sql.value A / 12
       == inject_Z k * Sql.unit_of_scale (Sql.dscale amount))%Q ->
      (Sql.value amount == Sql.value A / 12)%Q)) /\
  (Sql.billing_cycle s = "monthly"%string ->
   Sql.monthly_amount s = Some A /\
   (Sql.or_zero (Sql.total_mrr (before ++ s :: after))
    == Sql.or_zero (Sql.total_mrr (before ++ after)) + Sql.value A)%Q).
Proof.
  intros Hactive Hmrr. split; intros Hcycle.
  - cbv zeta.
    assert (E : Sql.monthly_amount s
                = Some (Sql.div_var A (Sql.of_integer 12))).
    { unfold Sql.monthly_amount. now rewrite Hcycle, Hmrr. }
    split; [exact E|]. split; [now apply total_mrr_insert|].
    pose proof (div_var_12 A) as Hu. cbv zeta in Hu.
    set (amount := Sql.div_var A (Sql.of_integer 12)) in *.
    set (r := Sql.dscale amount) in *.
    pose proof (pow10_pos r) as Hr.
    pose proof (pow10_pos (Sql.dscale A)) as Ha.
    set (d := (12 * 10 ^ Z.of_nat (Sql.dscale A))%Z) in *.
    set (n := (Sql.unscaled A * 10 ^ Z.of_nat r)%Z) in *.
    assert (Hd : (0 < d)%Z) by (unfold d; lia).
    split.
    + pose proof (round_half_away_close n d Hd) as Hclose.
      rewrite <- Hu in Hclose.
      apply Qabs_Qle_condition.
      unfold Sql.value, Sql.unit_of_scale, Qle, Qminus, Qplus, Qopp, Qdiv,
        Qmult, Qinv. fold r. cbn [Qnum Qden].
      rewrite !Pos2Z.inj_mul, !Z2Pos.id by lia.
      unfold d, n in Hclose. split; nia.
    + intros k Hk.
      assert (Hn : n = (d * k)%Z).
      { unfold Sql.value, Sql.unit_of_scale, Qeq, Qdiv, Qmult, Qinv, inject_Z
          in Hk. fold r in Hk. cbn [Qnum Qden] in Hk.
        rewrite !Pos2Z.inj_mul, !Z2Pos.id in Hk by lia.
        unfold d, n. nia. }
      rewrite Hn, round_half_away_exact in Hu by exact Hd.
      unfold Sql.value, Qeq, Qdiv, Qmult, Qinv. fold r. cbn [Qnum Qden].
      rewrite Hu, !Pos2Z.inj_mul, !Z2Pos.id by lia.
      unfold d, n in Hn. nia.
  - assert (E : Sql.monthly_amount s = Some A).
    { unfold Sql.monthly_amount. now rewrite Hcycle, Hmrr. }
    split; [exact E | now apply total_mrr_insert].
Qed.

(** C1, as the claim states it, fails: the annual amount 100.00 adds
    8.3333333333333333 to the monthly total, the quotient that the
    server rounds at 16 decimals, and not the rational 100/12. *)
Lemma annual_amount_is_rounded :
  let s := {| Sql.user_id := 1; Sql.plan_id := 2;
              Sql.status := "active"; Sql.billing_cycle := "annual";
              Sql.mrr := Some {| Sql.unscaled := 10000; Sql.dscale := 2 |} |} in
  Sql.monthly_amount s
  = Some {| Sql.unscaled := 83333333333333333; Sql.dscale := 16 |} /\
  Sql.total_mrr [s] = Some (83333333333333333 # 10000000000000000)%Q /\
  ~ (Sql.or_zero (Sql.total_mrr [s])
     == Sql.or_zero (Sql.total_mrr []) + (100 # 1) / 12)%Q.
Proof.
  cbv zeta. split; [vm_compute; reflexivity|].
  split; [vm_compute; reflexivity|].
  vm_compute. discriminate.
Qed.

Lemma mrr_contribution_witness :
  let annual := {| Sql.user_id := 1; Sql.plan_id := 2;
                   Sql.status := "active"; Sql.billing_cycle := "annual";
                   Sql.mrr := Some {| Sql.unscaled := 120000;
                                      Sql.dscale := 2 |} |} in
  let monthly := {| Sql.user_id := 2; Sql.plan_id := 3;
                    Sql.status := "active"; Sql.billing_cycle := "monthly";
                    Sql.mrr := Some {| Sql.unscaled := 2999;
                                       Sql.dscale := 2 |} |} in
  Sql.monthly_amount annual
  = Some {| Sql.unscaled := 1000000000000000000; Sql.dscale := 16 |} /\
  (Sql.or_zero (Sql.total_mrr ([monthly] ++ annual :: []))
   == Sql.or_zero (Sql.total_mrr ([monthly] ++ [])) + 100)%Q.
Proof.
  cbv zeta.
  pose proof (proj1 (mrr_contribution
                  [ {| Sql.user_id := 2; Sql.plan_id := 3;
                       Sql.status := "active"; Sql.billing_cycle := "monthly";
                       Sql.mrr := Some {| Sql.unscaled := 2999;
                                          Sql.dscale := 2 |} |} ] []
                  {| Sql.user_id := 1; Sql.plan_id := 2;
                     Sql.status := "active"; Sql.billing_cycle := "annual";
                     Sql.mrr := Some {| Sql.unscaled := 120000;
                                        Sql.dscale := 2 |} |}
                  {| Sql.unscaled := 120000; Sql.dscale := 2 |}
                  eq_refl eq_refl) eq_refl) as H.
  cbv zeta in H. destruct H as (H1 & H2 & _ & _).
  split; [exact H1|].
  rewrite H2. apply Qplus_comp; [reflexivity|]. vm_compute. reflexivity.
Defined.

End RevenueClaims.

Section FormatClaims.
Import Py PyNum QuickDashboard.
Local Open Scope list_scope.

(** The guard [NULLIF(total_users, 0)] keeps the division of the
    conversion query away from its error: the query always answers with
    one row, whose rate is [NULL] exactly when there is no user. *)
Lemma conversion_of_fetched (paid_users total_users : Z) :
  Sql.conversion_of paid_users total_users
  = Fetched [ {| ConversionRow.conversion_rate :=
                   if (total_users =? 0)%Z then None
                   else Some (Sql.value
                                (Sql.div_var
                                   (Sql.multiply
                                      (Sql.of_integer paid_users)
                                      {| Sql.unscaled := 1000;
                                         Sql.dscale := 1 |})
                                   (Sql.of_integer total_users))) |} ].
Proof.
  unfold Sql.conversion_of, Sql.conversion_rate_expr, Sql.NULLIF, Sql.divide.
  destruct (Z.eqb_spec total_users 0) as [->|Hne]; cbn [option_map];
    [reflexivity|].
  cbn [Sql.of_integer Sql.unscaled].
  destruct (Z.eqb_spec total_users 0); [contradiction | reflexivity].
Qed.

(** C2: with no user at all, the division of the conversion query is
    never reached ([NULLIF] makes the rate [NULL], whatever the number
    of paid users), and the report prints the rate as [0.00%], without
    raising. The guard holds for every pair of counts: the query never
    ends in the error [division by zero]. *)
Theorem conversion_rate_without_users :
  (forall paid_users total_users msg,
     Sql.conversion_of paid_users total_users <> Failed msg) /\
  (forall (w : world) (paid_users : Z),
     conversion w = Sql.conversion_of paid_users 0 ->
     conversion_rate w
     = (Ret tt, [Execute "Conversion rate";
                 Print (metric_line "Free-to-Paid Conversion" "0.00%")])) /\
  (forall (users : list Sql.user) (subscriptions : list Sql.subscription),
     Sql.total_users users subscriptions = 0%Z ->
     Sql.conversion_query users subscriptions
     = Fetched [ {| ConversionRow.conversion_rate := None |} ]).
Proof.
  split; [|split].
  - intros paid total msg. rewrite conversion_of_fetched. discriminate.
  - intros w paid Hw. unfold conversion_rate. rewrite Hw.
    rewrite conversion_of_fetched. reflexivity.
  - intros users subscriptions Hzero. unfold Sql.conversion_query.
    rewrite Hzero. apply conversion_of_fetched.
Qed.

Lemma conversion_rate_without_users_witness :
  conversion empty_world = Sql.conversion_of 0 0 /\
  conversion_rate empty_world
  = (Ret tt, [Execute "Conversion rate";
              Print "  Free-to-Paid Conversion             0.00%"]).
Proof.
  split; [reflexivity|].
  exact (proj1 (proj2 conversion_rate_without_users) empty_world 0%Z eq_refl).
Defined.

(** A [Decimal] is formatted without raising. *)
Lemma format_currency_decimal (q : Q) :
  format_currency (Some (PDecimal q))
  = Ret ("$" ++ format_f 2 true (float_of_decimal q))%string.
Proof. reflexivity. Qed.

(** C3: the currency format of [None] is [$0.00], and that of [1234.5]
    is [$1,234.50] -- whether the amount comes as the float [1234.5]
    (2469 halves), as the [Decimal] 1234.5 or as the [Decimal] 1234.50. *)
Theorem format_currency_examples :
  format_currency None = Ret "$0.00"%string /\
  format_currency (Some (PFloat (float_lit 2469 (-1)))) = Ret "$1,234.50"%string /\
  format_currency (Some (PDecimal (12345 # 10))) = Ret "$1,234.50"%string /\
  format_currency (Some (PDecimal (123450 # 100))) = Ret "$1,234.50"%string /\
  float_of_decimal (12345 # 10) = float_lit 2469 (-1).
Proof.
  split; [reflexivity|].
  split; [vm_compute; reflexivity|].
  split; [rewrite format_currency_decimal; vm_compute; reflexivity|].
  split; [rewrite format_currency_decimal; vm_compute; reflexivity|].
  vm_compute. reflexivity.
Qed.

End FormatClaims.

Section HarnessFacts.
Import Py PyNum QuickDashboard.
Local Open Scope list_scope.

Lemma executed_app (t u : trace) : executed (t ++ u) = executed t ++ executed u.
Proof. apply flat_map_app. Qed.

Lemma stdout_app (t u : trace) : stdout (t ++ u) = stdout t ++ stdout u.
Proof. apply flat_map_app. Qed.

(** The trace of a sequence: that of the first part, then that of the
    second when the first part does not raise. *)
Lemma bind_ret {A B} (m : M A) (k : A -> M B) (a : A) :
  fst m = Ret a -> bind m k = (fst (k a), snd m ++ snd (k a)).
Proof.
  destruct m as [r t]. cbn [fst snd]. intros ->. unfold bind.
  now destruct (k a).
Qed.

Lemma bind_raise {A B} (m : M A) (k : A -> M B) (e : exn) :
  fst m = Raise e -> bind m k = (Raise e, snd m).
Proof. destruct m as [r t]. cbn [fst snd]. now intros ->. Qed.

(** *** Computations that send no query *)

Lemma silent_ret {A} (a : A) : silent (ret a).
Proof. reflexivity. Qed.

Lemma silent_raise {A} (e : exn) : silent (@raise A e).
Proof. reflexivity. Qed.

Lemma silent_lift {A} (r : res A) : silent (lift r).
Proof. reflexivity. Qed.

Lemma silent_print (line : string) : silent (print line).
Proof. reflexivity. Qed.

Lemma silent_bind {A B} (m : M A) (k : A -> M B) :
  silent m -> (forall a, silent (k a)) -> silent (bind m k).
Proof.
  unfold silent. destruct m as [[a|e] t]; cbn [snd]; intros Hm Hk.
  - unfold bind. specialize (Hk a). destruct (k a) as [r t'].
    cbn [snd] in *. now rewrite executed_app, Hm, Hk.
  - exact Hm.
Qed.

Lemma silent_for_each {A} (xs : list A) (body : A -> M unit) :
  (forall x, silent (body x)) -> silent (for_each xs body).
Proof.
  intros Hbody. induction xs as [|x xs IH]; cbn [for_each].
  - apply silent_ret.
  - apply silent_bind; [apply Hbody | intros _; exact IH].
Qed.

Lemma silent_print_metric (label value unit' : string) :
  silent (print_metric label value unit').
Proof. reflexivity. Qed.

Lemma silent_print_header (title : string) : silent (print_header title).
Proof. reflexivity. Qed.

Lemma silent_if {A} (b : bool) (m1 m2 : M A) :
  silent m1 -> silent m2 -> silent (if b then m1 else m2).
Proof. now destruct b. Qed.

Lemma silent_match_option {A B} (o : option A) (f : A -> M B) (m : M B) :
  (forall a, silent (f a)) -> silent m ->
  silent (match o with Some a => f a | None => m end).
Proof. now destruct o. Qed.

(** [execute_query] sends its query, and nothing else. *)
Lemma executed_execute_query {row} (query : answer row) (description : string) :
  executed (snd (execute_query query description)) = [description].
Proof. now destruct query. Qed.

(** A query followed by computations that send none. *)
Lemma executed_query_then {row B} (query : answer row) (description : string)
  (k : list row -> M B) :
  (forall rows, silent (k rows)) ->
  executed (snd (bind (execute_query query description) k)) = [description].
Proof.
  intros Hk. destruct query as [rows|msg|].
  - unfold execute_query, bind. specialize (Hk rows).
    destruct (k rows) as [r t]. cbn [snd app] in *.
    cbn [executed flat_map app]. f_equal. exact Hk.
  - specialize (Hk []). unfold execute_query, bind, print, ret.
    cbn [app]. destruct (k []) as [r t]. cbn [snd] in *.
    cbn [executed flat_map app]. f_equal. exact Hk.
  - reflexivity.
Qed.

End HarnessFacts.

Section ReportFacts.
Import Py PyNum QuickDashboard.
Local Open Scope list_scope.

Ltac silence :=
  repeat (intros;
          first [ apply silent_ret | apply silent_raise | apply silent_lift
                | apply silent_print_metric | apply silent_print_header
                | apply silent_print | apply silent_bind
                | apply silent_for_each
                | match goal with
                  | |- silent (match ?o with Some _ => _ | None => _ end) =>
                      destruct o
                  | |- silent (if ?b then _ else _) => destruct b
                  end ]).

Lemma executed_after_header {B} (title : string) (k : unit -> M B) :
  executed (snd (bind (print_header title) k)) = executed (snd (k tt)).
Proof.
  rewrite (bind_ret _ _ tt) by reflexivity. cbn [snd].
  now rewrite executed_app.
Qed.

Lemma executed_count_metric (query : answer CountRow.t)
  (description label : string) :
  executed (snd (count_metric query description label)) = [description].
Proof. unfold count_metric. apply executed_query_then. silence. Qed.

(** Every section sends its own query once, and no other, whatever the
    answer. *)
Lemma executed_section (q : query) (w : world) :
  executed (snd (section_of q w)) = [description q].
Proof.
  destruct q; cbn [section_of description];
    try apply executed_count_metric.
  - unfold current_mrr. apply executed_query_then. silence.
  - unfold conversion_rate. apply executed_query_then. silence.
  - unfold revenue_by_plan. rewrite executed_after_header.
    apply executed_query_then. silence.
  - unfold user_growth. rewrite executed_after_header.
    apply executed_query_then. silence.
  - unfold top_channels. rewrite executed_after_header.
    apply executed_query_then. silence.
Qed.

(** The section of a failed query does not raise: it sends the query,
    prints the diagnostic that names it, and goes on with no row. *)
Lemma section_of_failed (q : query) (w : world) (msg : string) :
  fails w q msg ->
  exists rest,
    section_of q w = (Ret tt, rest) /\
    follows rest (Execute (description q)) (Print (diagnostic q msg)).
Proof.
  intros Hfails.
  destruct q; cbn [fails] in Hfails; cbn [section_of];
    unfold count_metric, current_mrr, conversion_rate, revenue_by_plan,
      user_growth, top_channels;
    rewrite Hfails; eexists; (split; [reflexivity|]).
  all: unfold follows, diagnostic; cbn [description].
  all: first [ now (exists []; eexists)
             | now (eexists [_; _; _]; eexists) ].
Qed.

Lemma completes_failed (q : query) (w : world) (msg : string) :
  fails w q msg -> completes (section_of q w).
Proof.
  intros H. destruct (section_of_failed q w msg H) as (rest & E & _).
  exists tt. now rewrite E.
Qed.

(** When the connection opens and no section raises, the report runs to
    its end, and its trace is the assembled one. *)
Lemma generate_dashboard_assembled (w : world) :
  connect_error w (DB_CONFIG w) = None ->
  (forall q, completes (section_of q w)) ->
  generate_dashboard w = (Ret tt, assembled w).
Proof.
  intros Hconnect Hall.
  unfold assembled, generate_dashboard, recent_activity, connect_db.
  rewrite Hconnect.
  generalize (Hall ActiveUsers) (Hall PaidSubs) (Hall CurrentMrr)
    (Hall ConversionRate) (Hall PlanRevenue) (Hall UserGrowth)
    (Hall ChannelPerformance) (Hall RecentSignups) (Hall RecentUpgrades)
    (Hall RecentChurn) (Hall ProjectsCreated).
  cbn [section_of]. unfold completes.
  destruct (count_metric (active_users w) _ _) as [[[]|?] t1];
    intros [? H]; [clear H | discriminate H].
  destruct (count_metric (paid_subs w) _ _) as [[[]|?] t2];
    intros [? H]; [clear H | discriminate H].
  destruct (current_mrr w) as [[[]|?] t3];
    intros [? H]; [clear H | discriminate H].
  destruct (conversion_rate w) as [[[]|?] t4];
    intros [? H]; [clear H | discriminate H].
  destruct (revenue_by_plan w) as [[[]|?] t5];
    intros [? H]; [clear H | discriminate H].
  destruct (user_growth w) as [[[]|?] t6];
    intros [? H]; [clear H | discriminate H].
  destruct (top_channels w) as [[[]|?] t7];
    intros [? H]; [clear H | discriminate H].
  destruct (count_metric (recent_signups w) _ _) as [[[]|?] t8];
    intros [? H]; [clear H | discriminate H].
  destruct (count_metric (recent_upgrades w) _ _) as [[[]|?] t9];
    intros [? H]; [clear H | discriminate H].
  destruct (count_metric (recent_churn w) _ _) as [[[]|?] t10];
    intros [? H]; [clear H | discriminate H].
  destruct (count_metric (projects_created w) _ _) as [[[]|?] t11];
    intros [? H]; [clear H | discriminate H].
  cbv beta iota zeta delta [bind print_header print ret header_events snd].
  rewrite <- ?app_assoc. reflexivity.
Qed.

(** The queries that an assembled report has sent: the whole catalog,
    in its order. *)
Lemma executed_assembled (w : world) :
  executed (assembled w) = map description catalog.
Proof.
  unfold assembled. rewrite !executed_app, !executed_section. reflexivity.
Qed.

Lemma follows_app_l (t u : trace) (a b : event) :
  follows t a b -> follows (t ++ u) a b.
Proof.
  intros (before & after & ->). exists before, (after ++ u).
  now rewrite <- app_assoc.
Qed.

Lemma follows_app_r (t u : trace) (a b : event) :
  follows u a b -> follows (t ++ u) a b.
Proof.
  intros (before & after & ->). exists (t ++ before), after.
  now rewrite <- app_assoc.
Qed.

(** The events of every section are part of the assembled trace. *)
Lemma follows_assembled (q : query) (w : world) (a b : event) :
  follows (snd (section_of q w)) a b -> follows (assembled w) a b.
Proof.
  intros H. unfold assembled.
  destruct q;
    repeat first [ apply follows_app_l; exact H | apply follows_app_r ].
Qed.

Lemma follows_stdout (t : trace) (a : event) (line : string) :
  follows t a (Print line) -> In line (stdout t).
Proof.
  intros (before & after & ->).
  change (before ++ a :: Print line :: after)
    with (before ++ [a] ++ [Print line] ++ after).
  rewrite !stdout_app. apply in_or_app. right. apply in_or_app. right.
  now left.
Qed.

End ReportFacts.

Section HarnessClaims.
Import Py PyNum QuickDashboard.
Local Open Scope list_scope.

Lemma query_eq_dec (q q' : query) : {q = q'} + {q <> q'}.
Proof. decide equality. Defined.

(** C4: a query of the catalog that fails does not abort the report.
    When the connection opens and the sections of the other queries do
    not raise, the report runs to its end; the failed query was sent and
    the diagnostic naming it printed right after; and every query of
    the catalog -- those after the failed one included -- was sent, in
    order. *)
Theorem failed_query_does_not_abort (w : world) (q : query) (msg : string) :
  connect_error w (DB_CONFIG w) = None ->
  fails w q msg ->
  (forall q', q' <> q -> completes (section_of q' w)) ->
  fst (generate_dashboard w) = Ret tt /\
  follows (snd (generate_dashboard w))
          (Execute (description q)) (Print (diagnostic q msg)) /\
  In (diagnostic q msg) (stdout (snd (generate_dashboard w))) /\
  executed (snd (generate_dashboard w)) = map description catalog.
Proof.
  intros Hconnect Hfails Hothers.
  assert (Hall : forall q', completes (section_of q' w)).
  { intros q'. destruct (query_eq_dec q' q) as [->|Hne].
    - exact (completes_failed q w msg Hfails).
    - exact (Hothers q' Hne). }
  rewrite (generate_dashboard_assembled w Hconnect Hall). cbn [fst snd].
  destruct (section_of_failed q w msg Hfails) as (rest & E & Hfollows).
  assert (Hdiag : follows (assembled w) (Execute (description q))
                          (Print (diagnostic q msg))).
  { apply (follows_assembled q). now rewrite E. }
  split; [reflexivity|]. split; [exact Hdiag|].
  split; [exact (follows_stdout _ _ _ Hdiag) | apply executed_assembled].
Qed.

Lemma failed_query_does_not_abort_witness :
  fst (generate_dashboard first_query_fails) = Ret tt /\
  executed (snd (generate_dashboard first_query_fails))
  = map description catalog.
Proof.
  assert (H : forall q', q' <> ActiveUsers ->
                         completes (section_of q' first_query_fails)).
  { intros q' _. exists tt. destruct q'; reflexivity. }
  pose proof (failed_query_does_not_abort first_query_fails ActiveUsers
                "relation does not exist" eq_refl eq_refl H) as (H1 & _ & _ & H4).
  split; [exact H1 | exact H4].
Defined.

(** C5: the exit status does not see the failed queries.  When the
    driver is there and the connection opens, and every query either
    fails or has a section that does not raise -- every query may fail
    -- the process leaves with status 0, having sent the whole catalog
    and printed the diagnostic of each failed query. *)
Theorem exit_status_ignores_failed_queries (w : world) :
  psycopg2_importable w = true ->
  connect_error w (DB_CONFIG w) = None ->
  (forall q, (exists msg, fails w q msg) \/ completes (section_of q w)) ->
  fst (run w) = 0%Z /\
  executed (snd (run w)) = map description catalog /\
  (forall q msg, fails w q msg -> In (diagnostic q msg) (stdout (snd (run w)))).
Proof.
  intros Hdriver Hconnect Hqueries.
  assert (Hall : forall q, completes (section_of q w)).
  { intros q. destruct (Hqueries q) as [[msg Hfails] | Hq].
    - exact (completes_failed q w msg Hfails).
    - exact Hq. }
  assert (E : run w = (0%Z, assembled w)).
  { unfold run, main. rewrite Hdriver.
    now rewrite (generate_dashboard_assembled w Hconnect Hall). }
  rewrite E. cbn [fst snd].
  split; [reflexivity|]. split; [apply executed_assembled|].
  intros q msg Hfails.
  destruct (section_of_failed q w msg Hfails) as (rest & Es & Hfollows).
  apply (follows_stdout _ (Execute (description q))).
  apply (follows_assembled q). now rewrite Es.
Qed.

Lemma exit_status_ignores_failed_queries_witness :
  (forall q, exists msg, fails broken_world q msg) /\
  fst (run broken_world) = 0%Z.
Proof.
  assert (H : forall q, exists msg, fails broken_world q msg).
  { intros q. exists "relation does not exist"%string. now destruct q. }
  split; [exact H|].
  exact (proj1 (exit_status_ignores_failed_queries broken_world eq_refl eq_refl
                  (fun q => or_introl (H q)))).
Defined.

(** C10, as the claim states it, fails: on standard output -- the one
    interface of the report -- a failed count is told from a true zero
    by the diagnostic that [execute_query] prints there. *)
Lemma failed_count_shows_on_stdout :
  stdout (snd (run first_query_fails)) <> stdout (snd (run empty_world)) /\
  In (diagnostic ActiveUsers "relation does not exist")
     (stdout (snd (run first_query_fails))) /\
  ~ In (diagnostic ActiveUsers "relation does not exist")
       (stdout (snd (run empty_world))).
Proof.
  split; [|split].
  - vm_compute. discriminate.
  - vm_compute. tauto.
  - vm_compute. intros H.
    repeat (destruct H as [H | H]; [discriminate H|]). exact H.
Qed.

End HarnessClaims.

(** * Further properties of the diagram pipeline *)

Section CharacterFacts.
Import Py.

(** Texts cut at a separator of one character. *)

Lemma prefix_empty (s : string) : prefix "" s = true.
Proof. now destruct s. Qed.

Lemma prefix_char (c d : ascii) (s : string) :
  prefix (String c "") (String d s)
  = if Ascii.ascii_dec c d then true else false.
Proof.
  cbn [prefix]. destruct (Ascii.ascii_dec c d); [apply prefix_empty | reflexivity].
Qed.

Lemma contains_char_cons (c d : ascii) (s : string) :
  contains (String c "") (String d s)
  = (if Ascii.ascii_dec c d then true else false) || contains (String c "") s.
Proof.
  change (contains (String c "") (String d s))
    with (prefix (String c "") (String d s) || contains (String c "") s).
  now rewrite prefix_char.
Qed.

Lemma contains_char_app (c : ascii) (a b : string) :
  contains (String c "") (a ++ b)
  = contains (String c "") a || contains (String c "") b.
Proof.
  induction a as [|d a IH].
  - cbn [append]. destruct b; reflexivity.
  - change (String d a ++ b) with (String d (a ++ b)).
    rewrite !contains_char_cons, IH. now rewrite orb_assoc.
Qed.

Lemma split_from_nonempty sep s : forall skip cur,
  split_from sep skip cur s <> [].
Proof.
  induction s as [|c s IH]; intros skip cur; cbn [split_from].
  - discriminate.
  - destruct skip; [|apply IH].
    destruct (prefix sep (String c s)); [discriminate | apply IH].
Qed.

Lemma join_cons sep x l :
  l <> [] -> join sep (x :: l) = x ++ sep ++ join sep l.
Proof. destruct l; [congruence | reflexivity]. Qed.

Lemma join_split_from (c : ascii) (new s : string) : forall cur,
  join new (split_from (String c "") 0 cur s)
  = cur ++ replace s (String c "") new.
Proof.
  unfold replace, split.
  induction s as [|d s IH]; intros cur.
  - cbn. now rewrite append_empty_r.
  - destruct (Ascii.ascii_dec c d) as [E|E].
    + rewrite !split_from_hit by (rewrite prefix_char; now destruct (Ascii.ascii_dec c d)).
      change (String.length (String c "") - 1)%nat with 0%nat.
      rewrite !join_cons by apply split_from_nonempty. reflexivity.
    + rewrite !split_from_miss by (rewrite prefix_char; now destruct (Ascii.ascii_dec c d)).
      rewrite IH, (IH ("" ++ String d "")). cbn [append].
      now rewrite append_assoc.
Qed.

(** [replace] works character by character when one character is
    replaced. *)
Lemma replace_char_cons (c d : ascii) (new s : string) :
  replace (String d s) (String c "") new
  = (if Ascii.ascii_dec c d then new else String d "")
      ++ replace s (String c "") new.
Proof.
  unfold replace at 1. unfold split.
  destruct (Ascii.ascii_dec c d) as [E|E].
  - rewrite split_from_hit by (rewrite prefix_char; now destruct (Ascii.ascii_dec c d)).
    change (String.length (String c "") - 1)%nat with 0%nat.
    rewrite join_cons by apply split_from_nonempty. reflexivity.
  - rewrite split_from_miss by (rewrite prefix_char; now destruct (Ascii.ascii_dec c d)).
    now rewrite join_split_from.
Qed.

Lemma replace_char_empty (c : ascii) (new : string) :
  replace "" (String c "") new = "".
Proof. reflexivity. Qed.

Lemma replace_char_app (c : ascii) (new a b : string) :
  replace (a ++ b) (String c "") new
  = replace a (String c "") new ++ replace b (String c "") new.
Proof.
  induction a as [|d a IH].
  - reflexivity.
  - change (String d a ++ b) with (String d (a ++ b)).
    now rewrite !replace_char_cons, IH, append_assoc.
Qed.

Lemma replace_char_absent (c : ascii) (new s : string) :
  contains (String c "") s = false -> replace s (String c "") new = s.
Proof.
  intros H. unfold replace, split. now rewrite split_from_absent.
Qed.

Lemma replace_char_itself (c : ascii) (new : string) :
  replace (String c "") (String c "") new = new.
Proof.
  rewrite replace_char_cons. destruct (Ascii.ascii_dec c c); [|congruence].
  now rewrite replace_char_empty, append_empty_r.
Qed.

(** Once a character is replaced by a text without it, it is gone. *)
Lemma replace_char_gone (c : ascii) (new s : string) :
  contains (String c "") new = false ->
  contains (String c "") (replace s (String c "") new) = false.
Proof.
  intros Hnew. induction s as [|d s IH]; [reflexivity|].
  rewrite replace_char_cons, contains_char_app, IH, orb_false_r.
  destruct (Ascii.ascii_dec c d) as [E|E]; [exact Hnew|].
  rewrite contains_char_cons. now destruct (Ascii.ascii_dec c d).
Qed.

(** Replacing the separator of a joined text joins the parts anew. *)
Lemma replace_join (c : ascii) (new : string) (parts : list string) :
  Forall (fun part => contains (String c "") part = false) parts ->
  replace (join (String c "") parts) (String c "") new = join new parts.
Proof.
  induction 1 as [|part parts Hpart _ IH]; [reflexivity|].
  destruct parts as [|next parts].
  - cbn [join String.concat]. now apply replace_char_absent.
  - rewrite !join_cons by discriminate.
    rewrite !replace_char_app, IH, replace_char_itself.
    now rewrite (replace_char_absent _ _ _ Hpart).
Qed.

End CharacterFacts.

Section BuilderProperties.
Import Py GenerateErd.
Local Open Scope list_scope.

Lemma filter_filter_none {A} (f g : A -> bool) (l : list A) :
  (forall x, g x = true -> f x = false) -> filter f (filter g l) = [].
Proof.
  intros H. induction l as [|x l IH]; [reflexivity|]. cbn [filter].
  destruct (g x) eqn:E; [cbn [filter]; now rewrite (H x E) | exact IH].
Qed.

Lemma filter_filter_all {A} (f g : A -> bool) (l : list A) :
  (forall x, f x = true -> g x = true) -> filter f (filter g l) = filter f l.
Proof.
  intros H. induction l as [|x l IH]; [reflexivity|]. cbn [filter].
  destruct (g x) eqn:E.
  - cbn [filter]. destruct (f x); now rewrite IH.
  - destruct (f x) eqn:F; [|exact IH]. rewrite (H x F) in E. discriminate E.
Qed.

Lemma table_is_no_relationship row :
  is_table row = true -> is_relationship row = false.
Proof. unfold is_table, is_relationship. now intros ->. Qed.

Lemma relationship_is_no_table row :
  is_relationship row = true -> is_table row = false.
Proof.
  unfold is_table, is_relationship. now destruct (row0 row =? "TABLES")%string.
Qed.

(** X1: The builder sorts its input into the two groups: the text depends
    only on the table rows, in their order, and on the relationship
    rows, in theirs.  How the rows of the two kinds alternate makes no
    difference, and a row of any other kind is ignored. *)
Theorem generate_dot_content_groups (schema_data : list schema_row) :
  generate_dot_content schema_data
  = generate_dot_content
      (table_rows schema_data ++ relationship_rows schema_data) /\
  generate_dot_content schema_data
  = generate_dot_content
      (filter (fun row => is_table row || is_relationship row) schema_data).
Proof.
  unfold generate_dot_content. rewrite !dot_lines_spec.
  unfold edges, table_rows, relationship_rows. split.
  - rewrite !filter_app.
    rewrite !(filter_filter_all is_table is_table) by auto.
    rewrite !(filter_filter_all is_relationship is_relationship) by auto.
    rewrite (filter_filter_none is_table is_relationship)
      by apply relationship_is_no_table.
    rewrite (filter_filter_none is_relationship is_table)
      by apply table_is_no_relationship.
    now rewrite app_nil_r.
  - rewrite (filter_filter_all is_table) by (intros x ->; reflexivity).
    rewrite (filter_filter_all is_relationship)
      by (intros x ->; apply orb_true_r).
    reflexivity.
Qed.

(** X2: Every line feed of the column text is escaped: none is left in the
    label, whatever the text, and columns that the text separates by
    line feeds come out separated by the renderer's [\l], each on a
    left-justified line of its own. *)
Theorem node_label_escapes_line_feeds
  (table_name details : string) (columns : list string) :
  Forall (fun column => contains LF column = false) columns ->
  contains LF (replace details LF "\l") = false /\
  fst (dot_lines [table_row table_name (join LF columns)])
  = [node_line table_name (join "\l" columns)].
Proof.
  intros Hcolumns. split.
  - now apply (replace_char_gone "010"%char).
  - rewrite dot_lines_spec. cbn [fst].
    change (table_rows [table_row table_name (join LF columns)])
      with [table_row table_name (join LF columns)].
    cbn [map]. unfold node_of. do 2 f_equal.
    exact (replace_join "010"%char "\l" columns Hcolumns).
Qed.

Lemma node_label_escapes_line_feeds_witness :
  fst (dot_lines [table_row "plans" (join LF ["id integer NOT NULL PK";
                                              "name plan_type NOT NULL"])])
  = [node_line "plans" "id integer NOT NULL PK\lname plan_type NOT NULL"].
Proof.
  apply (node_label_escapes_line_feeds "plans" ""
           ["id integer NOT NULL PK"; "name plan_type NOT NULL"]).
  repeat constructor.
Defined.

(** X3: A relationship row whose name does not hold the separator ["->"]
    is skipped without an error: the text is the one built without the
    row. *)
Theorem relationship_without_separator_skipped
  (row : schema_row) (before after : list schema_row) :
  is_relationship row = true ->
  contains "->" (row1 row) = false ->
  generate_dot_content (before ++ row :: after)
  = generate_dot_content (before ++ after).
Proof.
  intros Hrel Hfree. unfold generate_dot_content.
  change (row :: after) with ([row] ++ after).
  rewrite !dot_lines_app.
  assert (E : dot_lines [row] = ([], [])).
  { rewrite dot_lines_spec. unfold edges, table_rows, relationship_rows.
    cbn [filter]. rewrite Hrel, (relationship_is_no_table row Hrel).
    cbn [map flat_map]. unfold edge_of, split.
    now rewrite split_from_absent. }
  rewrite E. reflexivity.
Qed.

Lemma relationship_without_separator_skipped_witness :
  generate_dot_content
    ([table_row "users" "id uuid"]
       ++ ("RELATIONSHIPS", "users", "id") :: [table_row "plans" "id integer"])
  = generate_dot_content
      ([table_row "users" "id uuid"] ++ [table_row "plans" "id integer"]).
Proof.
  apply relationship_without_separator_skipped; reflexivity.
Defined.

End BuilderProperties.

Section DiagramRunProperties.
Import Py GenerateErd.
Local Open Scope list_scope.

(** The script is unfolded down to what it reads of the host. *)
Ltac unfold_run :=
  unfold run, main, check_dependencies, bind, try_except, subprocess_run,
    write_file, print, sys_exit, raise, ret.

Ltac simplify_run :=
  cbn [app andb negb orb exit_status fst snd files subprocess_calls stdout
       flat_map is_FileNotFoundError is_CalledProcessError].

Ltac not_among H :=
  cbn in H; repeat (destruct H as [H | H]; [discriminate H|]); exact H.

(** X16: [check_dependencies] by the three things that [dot -V] can
    meet.  A process that ends answers [True] exactly when its code is
    0; a binary that is not found answers [False]; both print the hint
    when the answer is [False].  A binary that the system does not
    start raises its [OSError] out of the function, which catches
    [FileNotFoundError] only, without the hint.  The driver being absent
    changes what is printed, not the answer; no other command is
    started and no file written. *)
Theorem check_dependencies_answer (h : host) :
  exists t,
    subprocess_calls t = [["dot"; "-V"]] /\
    files t = [] /\
    match run_process h ["dot"; "-V"] with
    | Exited returncode =>
        check_dependencies h = (Ret (returncode =? 0)%Z, t) /\
        (returncode <> 0%Z -> In graphviz_hint (stdout t))
    | NotFound =>
        check_dependencies h = (Ret false, t) /\
        In graphviz_hint (stdout t)
    | NotStarted =>
        check_dependencies h = (Raise OSError, t) /\
        ~ In graphviz_hint (stdout t)
    end.
Proof.
  unfold check_dependencies, bind, try_except, subprocess_run, print, ret.
  destruct (psycopg2_importable h);
    (destruct (run_process h ["dot"; "-V"]) as [| |rc]; simplify_run;
     [ eexists; refine (conj _ (conj _ (conj eq_refl _)));
       [reflexivity | reflexivity | cbn; tauto]
     | eexists; refine (conj _ (conj _ (conj eq_refl _)));
       [reflexivity | reflexivity | intros H; not_among H]
     | destruct (Z.eqb_spec rc 0) as [->|Hrc]; simplify_run;
       (eexists; refine (conj _ (conj _ (conj eq_refl _)));
        [reflexivity | reflexivity | intros H; try contradiction; cbn; tauto]) ]).
Qed.

(** X4: A run ends with status 0 or with status 1, and with status 0
    exactly when the renderer answers the version query, the graph
    description can be written and both images are rendered. *)
Theorem run_succeeds_iff (h : host) :
  (fst (run h) = 0%Z <-> all_in_place h) /\
  (fst (run h) = 0%Z \/ fst (run h) = 1%Z).
Proof.
  unfold all_in_place. unfold_run.
  destruct (psycopg2_importable h);
    (destruct (run_process h ["dot"; "-V"]) as [| |rc]; simplify_run;
     [ intuition discriminate | intuition discriminate |];
     destruct (Z.eqb_spec rc 0) as [->|Hrc]; simplify_run;
     [| intuition congruence ];
     destruct (can_open_for_writing h "schema_diagram.dot"); simplify_run;
     [| intuition discriminate ];
     destruct (run_process h png_command) as [| |rc1]; simplify_run;
     [ intuition discriminate | intuition discriminate |];
     destruct (Z.eqb_spec rc1 0) as [->|Hrc1]; simplify_run;
     [| intuition congruence ];
     destruct (run_process h svg_command) as [| |rc2]; simplify_run;
     [ intuition discriminate | intuition discriminate |];
     destruct (Z.eqb_spec rc2 0) as [->|Hrc2]; simplify_run;
     [ intuition reflexivity | intuition congruence ]).
Qed.

Lemma run_succeeds_iff_witness :
  all_in_place ready_host /\ fst (run ready_host) = 0%Z.
Proof.
  assert (H : all_in_place ready_host) by (repeat split; reflexivity).
  split; [exact H|].
  exact (proj2 (proj1 (run_succeeds_iff ready_host)) H).
Defined.

(** X5: The exit status, the files written and the commands started depend
    on the renderer and on the file system only: the driver being
    there or not, the environment and the database change none of
    them. *)
Theorem run_depends_on_renderer_and_files (h1 h2 : host) :
  same_renderer_and_files h1 h2 ->
  fst (run h1) = fst (run h2) /\
  files (snd (run h1)) = files (snd (run h2)) /\
  subprocess_calls (snd (run h1)) = subprocess_calls (snd (run h2)).
Proof.
  intros [Hrun Hopen]. unfold_run. rewrite !Hrun, !Hopen.
  destruct (psycopg2_importable h1), (psycopg2_importable h2);
    (destruct (run_process h2 ["dot"; "-V"]) as [| |rc]; simplify_run;
     [ repeat split | repeat split |];
     destruct (rc =? 0)%Z; simplify_run; [| repeat split ];
     destruct (can_open_for_writing h2 "schema_diagram.dot"); simplify_run;
     [| repeat split ];
     destruct (run_process h2 png_command) as [| |rc1]; simplify_run;
     [ repeat split | repeat split |];
     destruct (rc1 =? 0)%Z; simplify_run; [| repeat split ];
     destruct (run_process h2 svg_command) as [| |rc2]; simplify_run;
     [ repeat split | repeat split |];
     destruct (rc2 =? 0)%Z; simplify_run; repeat split).
Qed.

Lemma run_depends_on_renderer_and_files_witness :
  psycopg2_importable ready_host <> psycopg2_importable other_ready_host /\
  fst (run ready_host) = fst (run other_ready_host).
Proof.
  split; [discriminate|].
  apply (run_depends_on_renderer_and_files ready_host other_ready_host).
  split; reflexivity.
Defined.

(** X6: A run that succeeds has done these things in this order: checked
    the dependencies, written the graph description, rendered the PNG
    from it, then the SVG, and listed the three files. *)
Theorem successful_run_trace (h : host) :
  fst (run h) = 0%Z ->
  snd (run h)
  = written_trace h
      ++ [Subprocess png_command;
          Print "✓ Generated schema_diagram.png";
          Subprocess svg_command;
          Print "✓ Generated schema_diagram.svg";
          Print (LF ++ "🎉 Schema diagrams generated successfully!");
          Print "📁 Files created:";
          Print "   - schema_diagram.dot (Graphviz source)";
          Print "   - schema_diagram.png (Image)";
          Print "   - schema_diagram.svg (Scalable vector)"].
Proof.
  unfold written_trace. unfold_run.
  destruct (psycopg2_importable h);
    (destruct (run_process h ["dot"; "-V"]) as [| |rc]; simplify_run;
     [ discriminate | discriminate |];
     destruct (rc =? 0)%Z; simplify_run; [| discriminate ];
     destruct (can_open_for_writing h "schema_diagram.dot"); simplify_run;
     [| discriminate ];
     destruct (run_process h png_command) as [| |rc1]; simplify_run;
     [ discriminate | discriminate |];
     destruct (rc1 =? 0)%Z; simplify_run; [| discriminate ];
     destruct (run_process h svg_command) as [| |rc2]; simplify_run;
     [ discriminate | discriminate |];
     destruct (rc2 =? 0)%Z; simplify_run; [ reflexivity | discriminate ]).
Qed.

Lemma successful_run_trace_witness :
  subprocess_calls (snd (run other_ready_host))
  = [["dot"; "-V"]; png_command; svg_command].
Proof.
  rewrite (successful_run_trace other_ready_host eq_refl). reflexivity.
Defined.

(** X7: When a rendering command fails -- no binary, a binary that is
    not started, or a code other than 0 -- the run stops with status 1
    and starts no further command.  The
    graph description written before stays; after a failed PNG the SVG
    is not tried, and a failed SVG leaves the PNG rendered and
    announced, without the closing list of files. *)
Theorem failed_rendering_stops_run (h : host) :
  run_process h ["dot"; "-V"] = Exited 0 ->
  can_open_for_writing h "schema_diagram.dot" = true ->
  (command_fails h png_command ->
   fst (run h) = 1%Z /\
   files (snd (run h)) = [("schema_diagram.dot", static_dot_content)] /\
   subprocess_calls (snd (run h)) = [["dot"; "-V"]; png_command] /\
   ~ In "✓ Generated schema_diagram.png" (stdout (snd (run h)))) /\
  (run_process h png_command = Exited 0 ->
   command_fails h svg_command ->
   fst (run h) = 1%Z /\
   files (snd (run h)) = [("schema_diagram.dot", static_dot_content)] /\
   subprocess_calls (snd (run h))
   = [["dot"; "-V"]; png_command; svg_command] /\
   In "✓ Generated schema_diagram.png" (stdout (snd (run h))) /\
   ~ In "📁 Files created:" (stdout (snd (run h)))).
Proof.
  intros Hversion Hopen. unfold command_fails. split.
  - intros Hpng. unfold_run. rewrite Hversion, Hopen.
    destruct (run_process h png_command) as [| |rc]; simplify_run.
    + destruct (psycopg2_importable h); simplify_run;
        (repeat split; intros H; not_among H).
    + destruct (psycopg2_importable h); simplify_run;
        (repeat split; intros H; not_among H).
    + destruct (Z.eqb_spec rc 0) as [->|Hrc]; [congruence|]. simplify_run.
      destruct (psycopg2_importable h); simplify_run;
        (repeat split; intros H; not_among H).
  - intros Hpng Hsvg. unfold_run. rewrite Hversion, Hopen, Hpng.
    destruct (run_process h svg_command) as [| |rc]; simplify_run.
    + destruct (psycopg2_importable h); simplify_run;
        (repeat split; [cbn; tauto | intros H; not_among H]).
    + destruct (psycopg2_importable h); simplify_run;
        (repeat split; [cbn; tauto | intros H; not_among H]).
    + destruct (Z.eqb_spec rc 0) as [->|Hrc]; [congruence|]. simplify_run.
      destruct (psycopg2_importable h); simplify_run;
        (repeat split; [cbn; tauto | intros H; not_among H]).
Qed.

Lemma failed_rendering_stops_run_witness :
  command_fails (failing_on png_command) png_command /\
  fst (run (failing_on png_command)) = 1%Z /\
  command_fails (failing_on svg_command) svg_command /\
  fst (run (failing_on svg_command)) = 1%Z.
Proof.
  assert (Hpng : command_fails (failing_on png_command) png_command)
    by (vm_compute; discriminate).
  assert (Hsvg : command_fails (failing_on svg_command) svg_command)
    by (vm_compute; discriminate).
  split; [exact Hpng|]. split.
  - exact (proj1 (proj1 (failed_rendering_stops_run (failing_on png_command)
                           eq_refl eq_refl) Hpng)).
  - split; [exact Hsvg|].
    exact (proj1 (proj2 (failed_rendering_stops_run (failing_on svg_command)
                           eq_refl eq_refl) eq_refl Hsvg)).
Defined.

(** X8: When the graph description cannot be opened for writing, the error
    is not caught: the run ends with status 1 after the version query,
    having written nothing and rendered nothing. *)
Theorem unwritable_description_stops_run (h : host) :
  run_process h ["dot"; "-V"] = Exited 0 ->
  can_open_for_writing h "schema_diagram.dot" = false ->
  fst (run h) = 1%Z /\
  files (snd (run h)) = [] /\
  subprocess_calls (snd (run h)) = [["dot"; "-V"]] /\
  ~ In "✓ Generated schema_diagram.dot" (stdout (snd (run h))).
Proof.
  intros Hversion Hopen. unfold_run. rewrite Hversion, Hopen. simplify_run.
  destruct (psycopg2_importable h); simplify_run;
    (repeat split; intros H; not_among H).
Qed.

Lemma unwritable_description_stops_run_witness :
  fst (run read_only_host) = 1%Z /\ files (snd (run read_only_host)) = [].
Proof.
  destruct (unwritable_description_stops_run read_only_host eq_refl eq_refl)
    as (H1 & H2 & _).
  split; [exact H1 | exact H2].
Defined.

End DiagramRunProperties.
(** * Further properties of the metrics pipeline *)

Section ReportSteps.
Import Py PyNum QuickDashboard.
Local Open Scope list_scope.

Ltac next_section m :=
  destruct m as [[[]|?] ?];
  [| lazy beta iota zeta delta [bind print_header print ret header_events
                                fst snd];
     rewrite <- ?app_assoc; reflexivity ].

(** [generate_dashboard], read as the run of its sections: the report
    stops at the first section that raises, and closes the connection
    after the last one otherwise. *)
Lemma generate_dashboard_sections (w : world) :
  connect_error w (DB_CONFIG w) = None ->
  generate_dashboard w
  = match run_sections w catalog with
    | (Ret _, t) => (Ret tt, opening w ++ t ++ closing)
    | (Raise e, t) => (Raise e, opening w ++ t)
    end.
Proof.
  intros Hconnect.
  unfold generate_dashboard, recent_activity, connect_db, opening, closing.
  rewrite Hconnect. cbn [catalog run_sections section_of header_before].
  next_section (count_metric (active_users w) "Active users" "Active Users").
  next_section (count_metric (paid_subs w) "Paid subscribers" "Paid Subscribers").
  next_section (current_mrr w).
  next_section (conversion_rate w).
  next_section (revenue_by_plan w).
  next_section (user_growth w).
  next_section (top_channels w).
  next_section (count_metric (recent_signups w) "Recent signups" "New Signups").
  next_section (count_metric (recent_upgrades w) "Recent upgrades"
                             "New Paid Subscriptions").
  next_section (count_metric (recent_churn w) "Recent churn"
                             "Cancelled Subscriptions").
  next_section (count_metric (projects_created w) "Projects created"
                             "Projects Created").
  lazy beta iota zeta delta [bind print_header print ret header_events
                             fst snd].
  rewrite <- ?app_assoc, ?app_nil_r. reflexivity.
Qed.

Lemma run_sections_completes (w : world) (qs : list query) :
  (forall q, In q qs -> completes (section_of q w)) ->
  run_sections w qs = (Ret tt, sections_trace w qs).
Proof.
  induction qs as [|q qs IH]; intros H; [reflexivity|].
  cbn [run_sections sections_trace flat_map].
  destruct (H q (or_introl eq_refl)) as [[] Hq].
  rewrite IH by (intros q' Hq'; apply H; now right).
  destruct (section_of q w) as [r t]. cbn [fst] in Hq. subst r.
  unfold bind. cbn [snd]. now rewrite app_assoc.
Qed.

Lemma run_sections_stops (w : world) (q : query) (e : exn)
  (pre post : list query) :
  (forall q', In q' pre -> completes (section_of q' w)) ->
  fst (section_of q w) = Raise e ->
  run_sections w (pre ++ q :: post) = (Raise e, sections_trace w (pre ++ [q])).
Proof.
  intros Hpre Hq. induction pre as [|p pre IH].
  - cbn [app run_sections sections_trace flat_map].
    destruct (section_of q w) as [r t]. cbn [fst] in Hq. subst r.
    unfold bind. cbn [snd]. now rewrite app_nil_r.
  - cbn [app run_sections sections_trace flat_map].
    destruct (Hpre p (or_introl eq_refl)) as [[] Hp].
    rewrite IH by (intros q' Hq'; apply Hpre; now right).
    destruct (section_of p w) as [r t]. cbn [fst] in Hp. subst r.
    unfold bind. cbn [snd]. now rewrite app_assoc.
Qed.

Lemma catalog_split (q : query) :
  catalog = before q ++ q :: skipn (S (index q)) catalog.
Proof. destruct q; reflexivity. Qed.

(** The report stops at the first section that raises. *)
Lemma report_stops (w : world) (q : query) (e : exn) :
  connect_error w (DB_CONFIG w) = None ->
  (forall q', In q' (before q) -> completes (section_of q' w)) ->
  fst (section_of q w) = Raise e ->
  generate_dashboard w = (Raise e, trace_through w q).
Proof.
  intros Hconnect Hbefore Hq.
  rewrite (generate_dashboard_sections w Hconnect).
  pose proof (run_sections_stops w q e (before q)
                (skipn (S (index q)) catalog) Hbefore Hq) as E.
  rewrite <- catalog_split in E. now rewrite E.
Qed.

Lemma executed_header_before (q : query) : executed (header_before q) = [].
Proof. now destruct q. Qed.

Lemma executed_sections_trace (w : world) (qs : list query) :
  executed (sections_trace w qs) = map description qs.
Proof.
  induction qs as [|q qs IH]; [reflexivity|].
  cbn [sections_trace flat_map map].
  change (flat_map (fun q0 => header_before q0 ++ snd (section_of q0 w)) qs)
    with (sections_trace w qs).
  now rewrite !executed_app, executed_header_before, executed_section, IH.
Qed.

Lemma executed_trace_through (w : world) (q : query) :
  executed (trace_through w q) = map description (before q ++ [q]).
Proof.
  unfold trace_through. rewrite executed_app, executed_sections_trace.
  reflexivity.
Qed.

(** *** Computations that leave the connection open *)

Lemma open_app (t u : trace) :
  ~ In CloseConnection t -> ~ In CloseConnection u ->
  ~ In CloseConnection (t ++ u).
Proof. intros Ht Hu H. apply in_app_or in H. tauto. Qed.

Lemma keeps_open_ret {A} (a : A) : keeps_open (ret a).
Proof. intros []. Qed.

Lemma keeps_open_raise {A} (e : exn) : keeps_open (@raise A e).
Proof. intros []. Qed.

Lemma keeps_open_lift {A} (r : res A) : keeps_open (lift r).
Proof. intros []. Qed.

Lemma keeps_open_print (line : string) : keeps_open (print line).
Proof. intros [H|[]]. discriminate H. Qed.

Lemma keeps_open_bind {A B} (m : M A) (k : A -> M B) :
  keeps_open m -> (forall a, keeps_open (k a)) -> keeps_open (bind m k).
Proof.
  unfold keeps_open. destruct m as [[a|e] t]; cbn [snd]; intros Hm Hk.
  - unfold bind. specialize (Hk a). destruct (k a) as [r t'].
    cbn [snd] in *. now apply open_app.
  - exact Hm.
Qed.

Lemma keeps_open_for_each {A} (xs : list A) (body : A -> M unit) :
  (forall x, keeps_open (body x)) -> keeps_open (for_each xs body).
Proof.
  intros Hbody. induction xs as [|x xs IH]; cbn [for_each].
  - apply keeps_open_ret.
  - apply keeps_open_bind; [apply Hbody | intros _; exact IH].
Qed.

Lemma keeps_open_print_metric (label value unit' : string) :
  keeps_open (print_metric label value unit').
Proof. apply keeps_open_print. Qed.

Lemma keeps_open_print_header (title : string) :
  keeps_open (print_header title).
Proof. intros H. cbn in H. intuition discriminate. Qed.

Lemma keeps_open_execute_query {row} (query : answer row)
  (description : string) :
  keeps_open (execute_query query description).
Proof. destruct query; intros H; cbn in H; intuition discriminate. Qed.

Ltac stay_open :=
  repeat (intros;
          first [ apply keeps_open_ret | apply keeps_open_raise
                | apply keeps_open_lift | apply keeps_open_execute_query
                | apply keeps_open_print_metric | apply keeps_open_print_header
                | apply keeps_open_print | apply keeps_open_bind
                | apply keeps_open_for_each
                | match goal with
                  | |- keeps_open (match ?o with Some _ => _ | None => _ end) =>
                      destruct o
                  | |- keeps_open (if ?b then _ else _) => destruct b
                  end ]).

(** No section closes the connection. *)
Lemma keeps_open_section (q : query) (w : world) :
  keeps_open (section_of q w).
Proof.
  destruct q; cbn [section_of];
    unfold count_metric, current_mrr, conversion_rate, revenue_by_plan,
      user_growth, top_channels;
    stay_open.
Qed.

Lemma open_header_before (q : query) : ~ In CloseConnection (header_before q).
Proof. destruct q; intros H; cbn in H; intuition discriminate. Qed.

Lemma open_sections_trace (w : world) (qs : list query) :
  ~ In CloseConnection (sections_trace w qs).
Proof.
  induction qs as [|q qs IH]; [intros []|].
  cbn [sections_trace flat_map].
  apply open_app; [apply open_app|exact IH].
  - apply open_header_before.
  - apply keeps_open_section.
Qed.

Lemma open_trace_through (w : world) (q : query) :
  ~ In CloseConnection (trace_through w q).
Proof.
  unfold trace_through. apply open_app; [|apply open_sections_trace].
  intros H. cbn in H. intuition discriminate.
Qed.

Lemma interrupted_raises (w : world) (q : query) :
  interrupted w q -> fst (section_of q w) = Raise KeyboardInterrupt.
Proof.
  destruct q; cbn [interrupted section_of]; intros H;
    unfold count_metric, current_mrr, conversion_rate, revenue_by_plan,
      user_growth, top_channels;
    rewrite H; reflexivity.
Qed.

(** X10: An interrupt from the keyboard during a query cancels the report in
    good order: the sections before are printed, the line of the
    cancellation is the last one, no later query is sent, the
    connection is not closed, and the status is 0. *)
Theorem interrupted_query_cancels_report (w : world) (q : query) :
  psycopg2_importable w = true ->
  connect_error w (DB_CONFIG w) = None ->
  interrupted w q ->
  (forall q', In q' (before q) -> completes (section_of q' w)) ->
  run w = (0%Z, trace_through w q ++ [Print cancelled_line]) /\
  executed (snd (run w)) = map description (before q ++ [q]) /\
  ~ In CloseConnection (snd (run w)).
Proof.
  intros Hdriver Hconnect Hinterrupted Hbefore.
  assert (E : run w = (0%Z, trace_through w q ++ [Print cancelled_line])).
  { unfold run, main. rewrite Hdriver.
    rewrite (report_stops w q KeyboardInterrupt Hconnect Hbefore
               (interrupted_raises w q Hinterrupted)).
    reflexivity. }
  rewrite E. cbn [snd]. split; [reflexivity|]. split.
  - rewrite executed_app, executed_trace_through. cbn [executed flat_map].
    now rewrite app_nil_r.
  - apply open_app; [apply open_trace_through|].
    intros [H|[]]. discriminate H.
Qed.

Lemma interrupted_query_cancels_report_witness :
  interrupted interrupted_world UserGrowth /\
  fst (run interrupted_world) = 0%Z /\
  executed (snd (run interrupted_world))
  = ["Active users"; "Paid subscribers"; "Current MRR"; "Conversion rate";
     "Plan revenue"; "User growth"].
Proof.
  assert (H : forall q', In q' (before UserGrowth) ->
                         completes (section_of q' interrupted_world)).
  { intros q' Hq'. exists tt. cbn in Hq'.
    repeat (destruct Hq' as [<- | Hq']; [reflexivity|]). destruct Hq'. }
  destruct (interrupted_query_cancels_report interrupted_world UserGrowth
              eq_refl eq_refl eq_refl H) as (H1 & H2 & _).
  split; [reflexivity|]. split; [now rewrite H1 | exact H2].
Defined.

(** The report aborted by an exception of a section. *)
Lemma report_aborts (w : world) (q : query) (e : exn) :
  psycopg2_importable w = true ->
  connect_error w (DB_CONFIG w) = None ->
  (forall q', In q' (before q) -> completes (section_of q' w)) ->
  fst (section_of q w) = Raise e ->
  is_Exception e = true ->
  run w = (1%Z, trace_through w q ++ [Print (unexpected_line e)]).
Proof.
  intros Hdriver Hconnect Hbefore Hq He.
  unfold run, main. rewrite Hdriver.
  rewrite (report_stops w q e Hconnect Hbefore Hq).
  destruct e; try discriminate He; reflexivity.
Qed.

(** X11: An exception in a section aborts the whole report: what was
    printed so far stays, the text of the exception follows as an
    unexpected error, no later query is sent, the connection is not
    closed, and the status is 1. *)
Theorem raising_section_aborts_report (w : world) (q : query) (e : exn) :
  psycopg2_importable w = true ->
  connect_error w (DB_CONFIG w) = None ->
  (forall q', In q' (before q) -> completes (section_of q' w)) ->
  fst (section_of q w) = Raise e ->
  is_Exception e = true ->
  run w = (1%Z, trace_through w q ++ [Print (unexpected_line e)]) /\
  executed (snd (run w)) = map description (before q ++ [q]) /\
  ~ In CloseConnection (snd (run w)).
Proof.
  intros Hdriver Hconnect Hbefore Hq He.
  rewrite (report_aborts w q e Hdriver Hconnect Hbefore Hq He). cbn [snd].
  split; [reflexivity|]. split.
  - rewrite executed_app, executed_trace_through. cbn [executed flat_map].
    now rewrite app_nil_r.
  - apply open_app; [apply open_trace_through|].
    intros [H|[]]. discriminate H.
Qed.

Lemma raising_section_aborts_report_witness :
  fst (section_of ChannelPerformance null_channel_world)
  = Raise (no_attribute "replace") /\
  fst (run null_channel_world) = 1%Z.
Proof.
  assert (H : forall q', In q' (before ChannelPerformance) ->
                         completes (section_of q' null_channel_world)).
  { intros q' Hq'. exists tt. cbn in Hq'.
    repeat (destruct Hq' as [<- | Hq']; [reflexivity|]). destruct Hq'. }
  split; [reflexivity|].
  destruct (raising_section_aborts_report null_channel_world
              ChannelPerformance (no_attribute "replace")
              eq_refl eq_refl H eq_refl eq_refl) as (H1 & _).
  now rewrite H1.
Defined.

End ReportSteps.

Section FailedCountClaims.
Import Py PyNum QuickDashboard.
Local Open Scope list_scope.

(** A section reads the answer to its own query only. *)
Lemma section_of_same_answer (w w' : world) (q : query) :
  same_answer w w' q -> section_of q w = section_of q w'.
Proof.
  destruct q; cbn [same_answer section_of]; intros H;
    unfold current_mrr, conversion_rate, revenue_by_plan, user_growth,
      top_channels;
    now rewrite H.
Qed.

Lemma sections_trace_same_answers (w w' : world) (qs : list query) :
  (forall q, In q qs -> same_answer w w' q) ->
  sections_trace w qs = sections_trace w' qs.
Proof.
  induction qs as [|q qs IH]; intros H; [reflexivity|].
  unfold sections_trace in *. cbn [flat_map].
  rewrite (section_of_same_answer w w' q (H q (or_introl eq_refl))).
  now rewrite IH by (intros q' Hq'; apply H; now right).
Qed.

Lemma run_sections_same_answers (w w' : world) (qs : list query) :
  (forall q, In q qs -> same_answer w w' q) ->
  run_sections w qs = run_sections w' qs.
Proof.
  induction qs as [|q qs IH]; intros H; [reflexivity|].
  cbn [run_sections].
  rewrite (section_of_same_answer w w' q (H q (or_introl eq_refl))).
  now rewrite IH by (intros q' Hq'; apply H; now right).
Qed.

(** The run of the sections through one that does not raise. *)
Lemma run_sections_through (w : world) (q : query) (t : trace)
  (pre post : list query) :
  (forall q', In q' pre -> completes (section_of q' w)) ->
  section_of q w = (Ret tt, t) ->
  run_sections w (pre ++ q :: post)
  = (fst (run_sections w post),
     sections_trace w pre ++ header_before q ++ t
       ++ snd (run_sections w post)).
Proof.
  intros Hpre Hq. induction pre as [|p pre IH].
  - cbn [app run_sections sections_trace flat_map]. rewrite Hq.
    destruct (run_sections w post) as [r u]. unfold bind. cbn [fst snd app].
    reflexivity.
  - cbn [app run_sections sections_trace flat_map].
    destruct (Hpre p (or_introl eq_refl)) as [[] Hp].
    rewrite IH by (intros q' Hq'; apply Hpre; now right).
    destruct (section_of p w) as [r u]. cbn [fst] in Hp. subst r.
    unfold bind. cbn [fst snd]. rewrite <- ?app_assoc. reflexivity.
Qed.

(** The script, read as the run of its sections and its ending. *)
Lemma run_by_sections (w : world) :
  psycopg2_importable w = true ->
  connect_error w (DB_CONFIG w) = None ->
  run w
  = (fst (ending (fst (run_sections w catalog))),
     opening w ++ snd (run_sections w catalog)
       ++ snd (ending (fst (run_sections w catalog)))).
Proof.
  intros Hdriver Hconnect. unfold run, main. rewrite Hdriver.
  rewrite (generate_dashboard_sections w Hconnect).
  destruct (run_sections w catalog) as [[[]|e] t]; [reflexivity|].
  destruct e; cbn; rewrite <- ?app_assoc, ?app_nil_r; reflexivity.
Qed.

(** The section of a count metric whose query fails, and the one of a
    count that is zero. *)
Lemma count_section_failed (w : world) (q : query) (label msg : string) :
  In (q, label) count_metrics -> fails w q msg ->
  section_of q w
  = (Ret tt, [Execute (description q);
              Print (diagnostic q msg);
              Print (metric_line label "0")]).
Proof.
  intros Hin Hfails. cbn [count_metrics In] in Hin.
  repeat (destruct Hin as [Hin | Hin];
          [ injection Hin as <- <-; cbn [fails] in Hfails;
            cbn [section_of]; rewrite Hfails; reflexivity | ]).
  destruct Hin.
Qed.

Lemma count_section_zero (w : world) (q : query) (label : string) :
  In (q, label) count_metrics -> counts w q 0 ->
  section_of q w
  = (Ret tt, [Execute (description q); Print (metric_line label "0")]).
Proof.
  intros Hin Hzero. cbn [count_metrics In] in Hin.
  repeat (destruct Hin as [Hin | Hin];
          [ injection Hin as <- <-; cbn [counts] in Hzero;
            cbn [section_of]; rewrite Hzero; reflexivity | ]).
  destruct Hin.
Qed.

(** C10 (amended): when the query of a count metric fails, the metric
    is neither omitted nor raises: its section prints the diagnostic
    and then its line with the value [0].  Beside the run [w'] in which
    the query answers a true zero -- the surroundings and the answers to
    the earlier queries being the same -- the failed run [w] prints the
    same lines up to and including the line of the metric, except for
    the diagnostic right before that line.  When the later queries
    answer the same too, what follows is the same as well, and so is
    the exit status: the diagnostic is then the one difference on
    standard output. *)
Theorem failed_count_prints_zero
  (w w' : world) (q : query) (label msg : string) :
  In (q, label) count_metrics ->
  psycopg2_importable w = true ->
  connect_error w (DB_CONFIG w) = None ->
  same_surroundings w w' ->
  fails w q msg ->
  counts w' q 0 ->
  (forall q', In q' (before q) ->
              same_answer w w' q' /\ completes (section_of q' w)) ->
  section_of q w
  = (Ret tt, [Execute (description q);
              Print (diagnostic q msg);
              Print (metric_line label "0")]) /\
  exists rest rest',
    stdout (snd (run w))
    = printed_before w q
        ++ diagnostic q msg :: metric_line label "0" :: rest /\
    stdout (snd (run w'))
    = printed_before w q ++ metric_line label "0" :: rest' /\
    ((forall q', In q' (later q) -> same_answer w w' q') ->
     rest = rest' /\ fst (run w) = fst (run w')).
Proof.
  intros Hin Hdriver Hconnect (Hd & Hc & Hnow) Hfails Hzero Hbefore.
  pose proof (count_section_failed w q label msg Hin Hfails) as Hw.
  pose proof (count_section_zero w' q label Hin Hzero) as Hw'.
  split; [exact Hw|].
  assert (Hpre : forall q', In q' (before q) -> completes (section_of q' w))
    by (intros q' Hq'; now apply Hbefore).
  assert (Hsame : forall q', In q' (before q) -> same_answer w w' q')
    by (intros q' Hq'; now apply Hbefore).
  assert (Hpre' : forall q', In q' (before q) -> completes (section_of q' w')).
  { intros q' Hq'.
    rewrite <- (section_of_same_answer w w' q' (Hsame q' Hq')). now apply Hpre. }
  assert (Hopening : opening w' = opening w)
    by (unfold opening; now rewrite Hnow).
  rewrite (run_by_sections w Hdriver Hconnect).
  rewrite (run_by_sections w') by congruence.
  pose proof (run_sections_through w q _ (before q) (later q) Hpre Hw) as E.
  pose proof (run_sections_through w' q _ (before q) (later q) Hpre' Hw')
    as E'.
  unfold later in E, E'. rewrite <- catalog_split in E, E'.
  rewrite E, E'. fold (later q). cbn [fst snd].
  rewrite <- (sections_trace_same_answers w w' (before q) Hsame), Hopening.
  exists (stdout (snd (run_sections w (later q))
                    ++ snd (ending (fst (run_sections w (later q)))))),
         (stdout (snd (run_sections w' (later q))
                    ++ snd (ending (fst (run_sections w' (later q)))))).
  unfold printed_before. split; [|split].
  - rewrite !stdout_app. cbn [stdout flat_map app].
    now rewrite <- !app_assoc.
  - rewrite !stdout_app. cbn [stdout flat_map app].
    now rewrite <- !app_assoc.
  - intros Hlater.
    now rewrite (run_sections_same_answers w w' (later q) Hlater).
Qed.

Lemma failed_count_prints_zero_witness :
  fails first_query_fails ActiveUsers "relation does not exist" /\
  counts empty_world ActiveUsers 0 /\
  exists rest,
    stdout (snd (run first_query_fails))
    = printed_before first_query_fails ActiveUsers
        ++ "❌ Query failed (Active users): relation does not exist"%string
        :: "  Active Users                        0"%string :: rest /\
    stdout (snd (run empty_world))
    = printed_before first_query_fails ActiveUsers
        ++ "  Active Users                        0"%string :: rest.
Proof.
  split; [reflexivity|]. split; [reflexivity|].
  destruct (failed_count_prints_zero first_query_fails empty_world ActiveUsers
              "Active Users" "relation does not exist"
              (or_introl eq_refl) eq_refl eq_refl
              (conj eq_refl (conj eq_refl eq_refl)) eq_refl eq_refl
              (fun q' (H : In q' (before ActiveUsers)) => match H with end))
    as (_ & rest & rest' & E & E' & Hrest).
  destruct Hrest as [<- _].
  - intros q' Hq'. cbn in Hq'.
    repeat (destruct Hq' as [<- | Hq']; [reflexivity|]). destruct Hq'.
  - exists rest. split; [exact E | exact E'].
Defined.

End FailedCountClaims.

Section ReportProperties.
Import Py PyNum QuickDashboard.
Local Open Scope list_scope.

(** X9: When the database refuses the connection, the report stops before
    its first section with status 1: after its two opening lines it
    prints the text of the error and the hint, sends no query, and does
    not report the exit as an unexpected error. *)
Theorem unreachable_database_stops_report (w : world) (msg : string) :
  psycopg2_importable w = true ->
  connect_error w (DB_CONFIG w) = Some msg ->
  run w = (1%Z,
           opening w
             ++ [Print ("❌ Database connection failed: " ++ msg)%string;
                 Print (LF ++ "Try running: ./setup_database.sh")%string]) /\
  executed (snd (run w)) = [].
Proof.
  intros Hdriver Hconnect.
  assert (E : run w
              = (1%Z,
                 opening w
                   ++ [Print ("❌ Database connection failed: " ++ msg)%string;
                       Print (LF ++ "Try running: ./setup_database.sh")%string])).
  { unfold run, main, generate_dashboard, connect_db.
    rewrite Hdriver, Hconnect. reflexivity. }
  rewrite E. split; reflexivity.
Qed.

Lemma unreachable_database_stops_report_witness :
  fst (run unreachable_world) = 1%Z /\
  stdout (snd (run unreachable_world))
  = ["🚀 SaaS Analytics Dashboard"%string;
     "Generated at: 2024-03-09 07:05:00"%string;
     "❌ Database connection failed: connection refused"%string;
     (LF ++ "Try running: ./setup_database.sh")%string].
Proof.
  destruct (unreachable_database_stops_report unreachable_world
              "connection refused" eq_refl eq_refl) as [E _].
  rewrite E. split; reflexivity.
Defined.

(** X12: A report whose sections all complete closes the connection exactly
    once, after the last query of the catalog has been sent, and sends
    nothing afterwards. *)
Theorem connection_closed_once (w : world) :
  psycopg2_importable w = true ->
  connect_error w (DB_CONFIG w) = None ->
  (forall q, completes (section_of q w)) ->
  exists before_close after_close,
    snd (run w) = before_close ++ CloseConnection :: after_close /\
    ~ In CloseConnection before_close /\
    ~ In CloseConnection after_close /\
    executed before_close = map description catalog /\
    executed after_close = [].
Proof.
  intros Hdriver Hconnect Hall.
  exists (opening w ++ sections_trace w catalog), (tl closing).
  assert (E : run w = (0%Z, opening w ++ sections_trace w catalog ++ closing)).
  { unfold run, main. rewrite Hdriver.
    rewrite (generate_dashboard_sections w Hconnect).
    rewrite (run_sections_completes w catalog (fun q _ => Hall q)).
    reflexivity. }
  rewrite E. cbn [snd]. split; [now rewrite <- app_assoc|]. split.
  - apply open_app; [|apply open_sections_trace].
    intros H. cbn in H. intuition discriminate.
  - split; [intros H; cbn in H; intuition discriminate|].
    split; [|reflexivity].
    now rewrite executed_app, executed_sections_trace.
Qed.

Lemma connection_closed_once_witness :
  exists before_close after_close,
    snd (run empty_world) = before_close ++ CloseConnection :: after_close /\
    ~ In CloseConnection before_close /\
    ~ In CloseConnection after_close /\
    executed before_close = map description catalog /\
    executed after_close = [].
Proof.
  apply (connection_closed_once empty_world eq_refl eq_refl).
  intros q. exists tt. destruct q; reflexivity.
Defined.

(** X13: The sections without a loop -- the six counts, the recurring
    revenue and the conversion rate -- never raise on an answer of the
    database, rows or error: only an interrupt stops them. *)
Theorem plain_sections_never_raise (w : world) (q : query) :
  In q [ActiveUsers; PaidSubs; CurrentMrr; ConversionRate;
        RecentSignups; RecentUpgrades; RecentChurn; ProjectsCreated] ->
  ~ interrupted w q ->
  completes (section_of q w).
Proof.
  intros Hq Hnot. cbn [In] in Hq.
  repeat (destruct Hq as [<- | Hq]); try destruct Hq;
    cbn [interrupted section_of] in *;
    unfold count_metric, current_mrr, conversion_rate.
  all: match goal with
       | H : ?a <> Interrupted |- _ =>
           destruct a as [rows|msg|]; [| |now elim H]
       end.
  all: try (exists tt; reflexivity).
  - destruct rows as [|[[total|]] rows]; try (exists tt; reflexivity).
    cbn [execute_query bind MrrRow.total_mrr].
    destruct (truthy (PDecimal total)); exists tt; reflexivity.
  - destruct rows as [|[[rate|]] rows]; try (exists tt; reflexivity).
    cbn [execute_query bind ConversionRow.conversion_rate].
    destruct (truthy (PDecimal rate)); exists tt; reflexivity.
Qed.

Lemma plain_sections_never_raise_witness :
  completes (section_of CurrentMrr broken_world).
Proof.
  apply plain_sections_never_raise.
  - cbn. tauto.
  - discriminate.
Defined.

(** A loop whose body prints one line for each row until the body
    raises at a row. *)
Lemma for_each_stops {A} (body : A -> M unit) (line : A -> string) (e : exn)
  (pre post : list A) (x : A) :
  (forall y, In y pre -> body y = (Ret tt, [Print (line y)])) ->
  body x = (Raise e, []) ->
  for_each (pre ++ x :: post) body = (Raise e, map Print (map line pre)).
Proof.
  intros Hpre Hx. induction pre as [|y pre IH]; cbn [app for_each map].
  - now rewrite Hx.
  - rewrite (Hpre y (or_introl eq_refl)).
    rewrite IH by (intros z Hz; apply Hpre; now right).
    reflexivity.
Qed.

Lemma for_each_lines {A} (body : A -> M unit) (line : A -> string)
  (xs : list A) :
  (forall y, In y xs -> body y = (Ret tt, [Print (line y)])) ->
  for_each xs body = (Ret tt, map Print (map line xs)).
Proof.
  intros H. induction xs as [|y xs IH]; cbn [for_each map]; [reflexivity|].
  rewrite (H y (or_introl eq_refl)).
  rewrite IH by (intros z Hz; apply H; now right).
  reflexivity.
Qed.

(** X14: A channel without a name -- users whose [signup_channel] is
    [NULL] form such a group -- makes the section of the channels
    raise [AttributeError]: the channels before it are printed, one
    line each, the channels after it never are. *)
Theorem unnamed_channel_raises
  (w : world) (pre post : list ChannelRow.t) (row : ChannelRow.t) :
  channel_data w = Fetched (pre ++ row :: post) ->
  Forall has_channel pre ->
  ChannelRow.signup_channel row = None ->
  exists lines,
    List.length lines = List.length pre /\
    top_channels w
    = (Raise (no_attribute "replace"),
       header_events "Top Performing Acquisition Channels"
         ++ Execute "Channel performance" :: map Print lines).
Proof.
  intros Hdata Hpre Hrow.
  set (line := fun r : ChannelRow.t =>
         match ChannelRow.signup_channel r with
         | Some name =>
             ("  " ++ ljust 35 (title (replace name "_" " ")) ++ " "
                ++ (format_int true (ChannelRow.total_signups r)
                      ++ " signups → "
                      ++ format_int true (ChannelRow.paid_conversions r)
                      ++ " paid ("
                      ++ match ChannelRow.conversion_rate r with
                         | Some rate =>
                             format_f 2 false (float_of_decimal rate) ++ "%"
                         | None => "0.00%"
                         end ++ ")") ++ "")%string
         | None => ""%string
         end).
  exists (map line pre). split; [apply length_map|].
  unfold top_channels. rewrite Hdata.
  cbn [execute_query].
  erewrite (bind_ret (print_header _)) by reflexivity.
  erewrite (bind_ret (Ret _, [Execute _])) by reflexivity.
  cbn [fst snd].
  rewrite (for_each_stops _ line (no_attribute "replace") pre post row).
  - cbn [fst snd]. reflexivity.
  - intros y Hy. rewrite Forall_forall in Hpre. specialize (Hpre y Hy).
    unfold has_channel in Hpre. unfold line.
    destruct (ChannelRow.signup_channel y) as [name|]; [|congruence].
    destruct (ChannelRow.conversion_rate y); reflexivity.
  - rewrite Hrow. reflexivity.
Qed.

Lemma unnamed_channel_raises_witness :
  exists lines,
    List.length lines = 1 /\
    top_channels null_channel_world
    = (Raise (no_attribute "replace"),
       header_events "Top Performing Acquisition Channels"
         ++ Execute "Channel performance" :: map Print lines).
Proof.
  apply (unnamed_channel_raises null_channel_world [named_channel] []
           unnamed_channel eq_refl).
  - repeat constructor. discriminate.
  - reflexivity.
Defined.

Lemma stdout_prints (lines : list string) : stdout (map Print lines) = lines.
Proof.
  induction lines as [|l ls IH]; [reflexivity|].
  cbn [map]. change (stdout (Print l :: map Print ls))
               with (l :: stdout (map Print ls)).
  now rewrite IH.
Qed.

Lemma print_metric_line (label value : string) :
  print_metric label value "" = (Ret tt, [Print (metric_line label value)]).
Proof. unfold print_metric, metric_line, print. now rewrite append_empty_r. Qed.

(** X15: The section of the plans prints one line for each row, in the order
    of the query, when every row has a plan name, of ASCII characters;
    a revenue that is [NULL] is printed as [$0.00]. *)
Theorem revenue_by_plan_lines (w : world) (rows : list PlanRow.t) :
  plan_revenue w = Fetched rows ->
  Forall has_ascii_plan rows ->
  stdout (snd (revenue_by_plan w))
  = stdout (header_events "Revenue by Plan (Last 30 Days)") ++ plan_lines rows /\
  fst (revenue_by_plan w) = Ret tt /\
  List.length (plan_lines rows) = List.length rows.
Proof.
  intros Hdata Hascii.
  assert (Hrows : Forall has_plan rows).
  { apply (Forall_impl _ (P := has_ascii_plan)); [|exact Hascii].
    intros row (name & E & _). unfold has_plan. now rewrite E. }
  clear Hascii.
  set (line := fun r : PlanRow.t =>
         match PlanRow.plan r with
         | Some name => plan_line name r
         | None => ""%string
         end).
  assert (Hlines : plan_lines rows = map line rows).
  { clear Hdata. unfold plan_lines, line.
    induction Hrows as [|r rows Hr _ IH]; [reflexivity|].
    cbn [flat_map map]. unfold has_plan in Hr.
    destruct (PlanRow.plan r); [|congruence]. cbn [app]. now f_equal. }
  assert (E : revenue_by_plan w
              = (Ret tt,
                 header_events "Revenue by Plan (Last 30 Days)"
                   ++ Execute "Plan revenue" :: map Print (map line rows))).
  { unfold revenue_by_plan. rewrite Hdata. cbn [execute_query].
    erewrite (bind_ret (print_header _)) by reflexivity.
    erewrite (bind_ret (Ret _, [Execute _])) by reflexivity.
    cbn [fst snd]. rewrite (for_each_lines _ line rows); [reflexivity|].
    intros y Hy. rewrite Forall_forall in Hrows. specialize (Hrows y Hy).
    unfold has_plan in Hrows. unfold line, plan_line, currency_text.
    destruct (PlanRow.plan y) as [name|]; [|congruence].
    destruct (PlanRow.revenue y);
      cbn [bind ret lift format_number to_int option_map format_currency
           to_float];
      rewrite print_metric_line; reflexivity. }
  rewrite E, Hlines. cbn [fst snd]. split; [|split].
  - rewrite stdout_app. f_equal. exact (stdout_prints (map line rows)).
  - reflexivity.
  - now rewrite length_map.
Qed.

Lemma revenue_by_plan_lines_witness :
  stdout (snd (revenue_by_plan plans_world))
  = stdout (header_events "Revenue by Plan (Last 30 Days)")
      ++ ["  Pro Plan                            $35,787.66 (1,234 transactions)"%string;
          "  Starter Plan                        $0.00 (2 transactions)"%string].
Proof.
  refine (proj1 (revenue_by_plan_lines plans_world _ eq_refl _)).
  repeat (constructor; [eexists; split; reflexivity|]). constructor.
Defined.

End ReportProperties.
Section ReportExceptions.
Import Py PyNum QuickDashboard.
Local Open Scope list_scope.

(** *** The exceptions that a computation can raise *)

Lemma raises_only_ret {A} (allowed : exn -> Prop) (a : A) :
  raises_only allowed (ret a).
Proof. intros e H. discriminate H. Qed.

Lemma raises_only_raise {A} (allowed : exn -> Prop) (e : exn) :
  allowed e -> raises_only allowed (@raise A e).
Proof. intros He e' H. injection H as <-. exact He. Qed.

Lemma raises_only_print (allowed : exn -> Prop) (line : string) :
  raises_only allowed (print line).
Proof. intros e H. discriminate H. Qed.

Lemma raises_only_lift {A} (allowed : exn -> Prop) (r : res A) :
  (forall e, r = Raise e -> allowed e) -> raises_only allowed (lift r).
Proof. intros Hr e H. exact (Hr e H). Qed.

Lemma raises_only_bind {A B} (allowed : exn -> Prop) (m : M A)
  (k : A -> M B) :
  raises_only allowed m -> (forall a, raises_only allowed (k a)) ->
  raises_only allowed (bind m k).
Proof.
  unfold raises_only. destruct m as [[a|e] t]; cbn [fst]; intros Hm Hk e' H.
  - unfold bind in H. specialize (Hk a). destruct (k a) as [r t'].
    cbn [fst] in *. now apply Hk.
  - cbn in H. injection H as <-. now apply Hm.
Qed.

Lemma raises_only_for_each {A} (allowed : exn -> Prop) (xs : list A)
  (body : A -> M unit) :
  (forall x, raises_only allowed (body x)) ->
  raises_only allowed (for_each xs body).
Proof.
  intros Hbody. induction xs as [|x xs IH]; cbn [for_each].
  - apply raises_only_ret.
  - apply raises_only_bind; [apply Hbody | intros _; exact IH].
Qed.

Lemma raises_only_print_metric (allowed : exn -> Prop)
  (label value unit' : string) :
  raises_only allowed (print_metric label value unit').
Proof. apply raises_only_print. Qed.

Lemma raises_only_print_header (allowed : exn -> Prop) (title : string) :
  raises_only allowed (print_header title).
Proof. intros e H. discriminate H. Qed.

Lemma raises_only_execute_query {row} (allowed : exn -> Prop)
  (query : answer row) (description : string) :
  allowed KeyboardInterrupt ->
  raises_only allowed (execute_query query description).
Proof.
  intros Hk. destruct query; intros e H; try discriminate H.
  injection H as <-. exact Hk.
Qed.

(** What the three formats and the conversions can raise. *)
Lemma to_float_raises (value : number) (e : exn) :
  to_float value = Raise e -> exists msg, e = OverflowError msg.
Proof.
  destruct value as [n|f|q]; cbn [to_float]; try discriminate.
  unfold float_of_int.
  destruct (binary_normalize prec emax n 0 false); try discriminate.
  intros H. injection H as <-. eauto.
Qed.

Lemma to_int_raises (value : number) (e : exn) :
  to_int value = Raise e ->
  exists msg, e = OverflowError msg \/ e = ValueError msg.
Proof.
  destruct value as [n|[s|s| |s m x]|q]; cbn [to_int]; try discriminate;
    intros H; injection H as <-; eauto.
Qed.

Lemma format_currency_raises (amount : option number) (e : exn) :
  format_currency amount = Raise e -> exists msg, e = OverflowError msg.
Proof.
  destruct amount as [value|]; cbn [format_currency]; [|discriminate].
  destruct (to_float value) as [f|e'] eqn:E; [discriminate|].
  intros H. injection H as <-. exact (to_float_raises value e' E).
Qed.

Lemma format_percentage_raises (value : option number) (e : exn) :
  format_percentage value = Raise e -> exists msg, e = OverflowError msg.
Proof.
  destruct value as [value|]; cbn [format_percentage]; [|discriminate].
  destruct (to_float value) as [f|e'] eqn:E; [discriminate|].
  intros H. injection H as <-. exact (to_float_raises value e' E).
Qed.

Lemma format_number_raises (value : option number) (e : exn) :
  format_number value = Raise e ->
  exists msg, e = OverflowError msg \/ e = ValueError msg.
Proof.
  destruct value as [value|]; cbn [format_number]; [|discriminate].
  destruct (to_int value) as [n|e'] eqn:E; [discriminate|].
  intros H. injection H as <-. exact (to_int_raises value e' E).
Qed.

Lemma int_truediv_raises (a b : Z) (e : exn) :
  int_truediv a b = Raise e ->
  (b = 0%Z /\ exists msg, e = ZeroDivisionError msg)
  \/ exists msg, e = OverflowError msg.
Proof.
  unfold int_truediv. destruct (Z.eqb_spec b 0) as [->|Hb].
  - intros H. injection H as <-. left. eauto.
  - destruct (float_of_decimal _); try discriminate.
    intros H. injection H as <-. right. eauto.
Qed.

Ltac allowed_formats :=
  match goal with
  | |- raises_only _ (lift (format_number ?v)) =>
      apply raises_only_lift; intros ? HH;
      destruct (format_number_raises v _ HH) as [? [-> | ->]]; exact I
  | |- raises_only _ (lift (format_currency ?v)) =>
      apply raises_only_lift; intros ? HH;
      destruct (format_currency_raises v _ HH) as [? ->]; exact I
  | |- raises_only _ (lift (format_percentage ?v)) =>
      apply raises_only_lift; intros ? HH;
      destruct (format_percentage_raises v _ HH) as [? ->]; exact I
  | |- raises_only _ (lift (to_float ?v)) =>
      apply raises_only_lift; intros ? HH;
      destruct (to_float_raises v _ HH) as [? ->]; exact I
  | |- raises_only _ (lift (float_of_int ?n)) =>
      apply raises_only_lift; intros ? HH;
      destruct (to_float_raises (PInt n) _ HH) as [? ->]; exact I
  end.

Ltac allowed :=
  repeat (intros;
          first [ apply raises_only_ret
                | apply raises_only_raise; exact I
                | apply raises_only_execute_query; exact I
                | apply raises_only_print_metric
                | apply raises_only_print_header
                | apply raises_only_print
                | allowed_formats
                | apply raises_only_bind
                | apply raises_only_for_each
                | match goal with
                  | |- raises_only _ (match ?o with Some _ => _ | None => _ end) =>
                      destruct o
                  end ]).

(** The division of the activation rate is guarded: with [new_users]
    above zero the divisor is not zero. *)
Lemma activation_rate_no_zero_division (new_users activated : Z) :
  raises_only no_ZeroDivisionError
    (if (new_users >? 0)%Z
     then bind (lift (int_truediv activated new_users))
               (fun ratio => ret (fmul ratio (float_lit 100 0)))
     else lift (float_of_int 0)).
Proof.
  destruct (new_users >? 0)%Z eqn:E.
  - apply raises_only_bind; [|intros; apply raises_only_ret].
    apply raises_only_lift. intros e He.
    destruct (int_truediv_raises _ _ _ He) as [[Hz _] | [msg ->]]; [|exact I].
    subst new_users. discriminate E.
  - allowed.
Qed.

Lemma activation_rate_no_exit (new_users activated : Z) :
  raises_only no_SystemExit
    (if (new_users >? 0)%Z
     then bind (lift (int_truediv activated new_users))
               (fun ratio => ret (fmul ratio (float_lit 100 0)))
     else lift (float_of_int 0)).
Proof.
  destruct (new_users >? 0)%Z.
  - apply raises_only_bind; [|intros; apply raises_only_ret].
    apply raises_only_lift. intros e He.
    destruct (int_truediv_raises _ _ _ He) as [[_ [msg ->]] | [msg ->]];
      exact I.
  - allowed.
Qed.

(** X17: No section of the report divides by zero: the activation rate of a
    month is computed only when the month has new users, and nothing
    else in the report divides in Python.  So no answer of the database
    makes a section raise [ZeroDivisionError]. *)
Theorem sections_never_divide_by_zero (w : world) (q : query) (msg : string) :
  fst (section_of q w) <> Raise (ZeroDivisionError msg).
Proof.
  assert (H : raises_only no_ZeroDivisionError (section_of q w)).
  { destruct q; cbn [section_of];
      unfold count_metric, current_mrr, conversion_rate, revenue_by_plan,
        user_growth, top_channels, no_attribute;
      allowed; try apply activation_rate_no_zero_division; allowed. }
  intros E. exact (H _ E).
Qed.

Lemma sections_never_exit (w : world) (q : query) :
  raises_only no_SystemExit (section_of q w).
Proof.
  destruct q; cbn [section_of];
    unfold count_metric, current_mrr, conversion_rate, revenue_by_plan,
      user_growth, top_channels, no_attribute;
    allowed; try apply activation_rate_no_exit; allowed.
Qed.

Lemma run_sections_never_exit (w : world) (qs : list query) :
  raises_only no_SystemExit (run_sections w qs).
Proof.
  induction qs as [|q qs IH]; cbn [run_sections].
  - apply raises_only_ret.
  - apply raises_only_bind; [intros e H; discriminate H|].
    intros _. apply raises_only_bind; [apply sections_never_exit|].
    intros _. exact IH.
Qed.

(** X18: Whatever the driver, the server and the answers of the database,
    the script ends with status 0 or with status 1: 0 when the report
    is printed to its end or cancelled from the keyboard, 1 otherwise. *)
Theorem exit_status_is_0_or_1 (w : world) :
  fst (run w) = 0%Z \/ fst (run w) = 1%Z.
Proof.
  unfold run, main.
  destruct (psycopg2_importable w); [|right; reflexivity].
  destruct (connect_error w (DB_CONFIG w)) as [msg|] eqn:Hconnect.
  - right. unfold generate_dashboard, connect_db. rewrite Hconnect.
    reflexivity.
  - rewrite (generate_dashboard_sections w Hconnect).
    pose proof (run_sections_never_exit w catalog) as Hexit.
    destruct (run_sections w catalog) as [[[]|e] t].
    + left. reflexivity.
    + specialize (Hexit e eq_refl).
      destruct e; try contradiction; (left; reflexivity) || (right; reflexivity).
Qed.

End ReportExceptions.
Section FormatProperties.
Import Py PyNum QuickDashboard.
Local Open Scope list_scope.

(** *** The digits of a number and their groups *)

Lemma split_char_hit (c : ascii) (cur s : string) :
  split_from (String c "") 0 cur (String c s)
  = cur :: split_from (String c "") 0 "" s.
Proof.
  rewrite split_from_hit
    by (rewrite prefix_char; now destruct (Ascii.ascii_dec c c)).
  reflexivity.
Qed.

Lemma split_char_miss (c d : ascii) (cur s : string) :
  c <> d ->
  split_from (String c "") 0 cur (String d s)
  = split_from (String c "") 0 (cur ++ String d "") s.
Proof.
  intros Hcd. apply split_from_miss. rewrite prefix_char.
  now destruct (Ascii.ascii_dec c d).
Qed.

Lemma free_cons (c d : ascii) (s : string) :
  contains (String c "") (String d s) = false ->
  c <> d /\ contains (String c "") s = false.
Proof.
  rewrite contains_char_cons. destruct (Ascii.ascii_dec c d) as [E|E].
  - discriminate.
  - cbn [orb]. now split.
Qed.

Lemma nilempty_digits_no_comma (d : Decimal.uint) :
  contains "," (NilEmpty.string_of_uint d) = false.
Proof.
  induction d; cbn [NilEmpty.string_of_uint]; [reflexivity|..];
    rewrite contains_char_cons, IHd;
    (destruct (Ascii.ascii_dec _ _) as [E|E]; [discriminate E | reflexivity]).
Qed.

Lemma digits_no_comma (n : Z) : contains "," (digits n) = false.
Proof.
  unfold digits, NilZero.string_of_uint.
  destruct (N.to_uint (Z.to_N n)); try apply nilempty_digits_no_comma.
  reflexivity.
Qed.

Lemma digits_nonempty (n : Z) : 1 <= String.length (digits n).
Proof.
  unfold digits, NilZero.string_of_uint.
  destruct (N.to_uint (Z.to_N n)); cbn; lia.
Qed.

(** Without its commas, a grouped text is the text itself. *)
Lemma group_from_strip (s : string) : forall k,
  contains "," s = false -> replace (group_from k s) "," "" = s.
Proof.
  induction s as [|c s IH]; intros k Hfree; [reflexivity|].
  destruct (free_cons _ _ _ Hfree) as [Hc Hs].
  assert (Hhead : forall rest,
             replace (String c rest) "," "" = String c (replace rest "," "")).
  { intros rest. rewrite (replace_char_cons ","%char c).
    now destruct (Ascii.ascii_dec "," c). }
  destruct k as [|k]; cbn [group_from]; rewrite Hhead; f_equal.
  - destruct s as [|d s]; [reflexivity|].
    rewrite (replace_char_cons ","%char ","%char).
    destruct (Ascii.ascii_dec "," ","); [|congruence].
    cbn [append]. now apply IH.
  - now apply IH.
Qed.

(** The groups of a grouped text: when the text has [k + 1] characters
    more than a multiple of three, the first group has [k + 1]
    characters and every other group has three. *)
Lemma group_from_groups (s : string) : forall k cur m,
  contains "," s = false ->
  String.length s = k + 1 + 3 * m ->
  exists first rest,
    split_from "," 0 cur (group_from k s) = (cur ++ first)%string :: rest /\
    String.length first = k + 1 /\
    Forall (fun group => String.length group = 3) rest.
Proof.
  induction s as [|c s IH]; intros k cur m Hfree Hlen;
    [cbn in Hlen; lia|].
  destruct (free_cons _ _ _ Hfree) as [Hc Hs]. cbn [String.length] in Hlen.
  destruct k as [|k]; cbn [group_from].
  - destruct s as [|d s].
    + exists (String c ""), []. rewrite (split_char_miss ","%char c) by exact Hc.
      cbn [split_from]. repeat split. constructor.
    + rewrite (split_char_miss ","%char c) by exact Hc.
      rewrite (split_char_hit ","%char).
      destruct m as [|m]; [cbn [String.length] in Hlen; lia|].
      destruct (IH 2 ""%string m Hs ltac:(lia)) as (first & rest & E & Hf & Hr).
      exists (String c ""), (first :: rest). rewrite E. cbn [append].
      repeat split. constructor; assumption.
  - rewrite (split_char_miss ","%char c) by exact Hc.
    destruct (IH k (cur ++ String c "")%string m Hs ltac:(lia))
      as (first & rest & E & Hf & Hr).
    exists (String c first), rest. rewrite E, append_assoc. cbn [append].
    repeat split; [cbn [String.length]; lia | assumption].
Qed.

Lemma group_thousands_groups (s cur : string) :
  contains "," s = false -> 1 <= String.length s ->
  exists first rest,
    split_from "," 0 cur (group_thousands s) = (cur ++ first)%string :: rest /\
    1 <= String.length first <= 3 /\
    Forall (fun group => String.length group = 3) rest.
Proof.
  intros Hfree Hlen. unfold group_thousands.
  pose proof (Nat.div_mod_eq (String.length s + 2) 3) as Hdiv.
  pose proof (Nat.mod_upper_bound (String.length s + 2) 3 ltac:(lia)) as Hmod.
  destruct (group_from_groups s ((String.length s + 2) mod 3) cur
              ((String.length s + 2) / 3 - 1) Hfree ltac:(lia))
    as (first & rest & E & Hf & Hr).
  exists first, rest. repeat split; try assumption; lia.
Qed.

(** X19: The thousands separators of [format_number]: an integer is printed
    with its digits in groups, the first of one to three digits (after
    the sign), every other of exactly three, commas between the groups;
    without the commas the text is the plain decimal writing of the
    integer. *)
Theorem format_number_groups (n : Z) :
  format_number (Some (PInt n)) = Ret (format_int true n) /\
  replace (format_int true n) "," "" = format_int false n /\
  exists first rest,
    split (format_int true n) ","
    = ((if (n <? 0)%Z then "-" else "") ++ first)%string :: rest /\
    1 <= String.length first <= 3 /\
    Forall (fun group => String.length group = 3) rest.
Proof.
  split; [reflexivity|].
  assert (Et : format_int true n
               = ((if (n <? 0)%Z then "-" else "")
                    ++ group_thousands (digits (Z.abs n)))%string)
    by reflexivity.
  assert (Ef : format_int false n
               = ((if (n <? 0)%Z then "-" else "")
                    ++ digits (Z.abs n))%string)
    by reflexivity.
  rewrite Et, Ef. split.
  - rewrite (replace_char_app ","%char). unfold group_thousands.
    rewrite group_from_strip by apply digits_no_comma.
    now destruct (n <? 0)%Z.
  - destruct (group_thousands_groups (digits (Z.abs n))
                (if (n <? 0)%Z then "-" else "")%string
                (digits_no_comma (Z.abs n)) (digits_nonempty (Z.abs n)))
      as (first & rest & E & Hf & Hr).
    exists first, rest. split; [|now split].
    unfold split. rewrite <- E. now destruct (n <? 0)%Z.
Qed.

(** *** The columns of a metric line *)

Lemma len_append (a b : string) : len (a ++ b) = len a + len b.
Proof.
  induction a as [|c a IH]; cbn [append len]; [reflexivity|].
  rewrite IH. lia.
Qed.

Lemma len_spaces (n : nat) : len (repeat_char " " n) = n.
Proof. induction n as [|n IH]; cbn; [reflexivity | now rewrite IH]. Qed.

(** X20: [print_metric] prints one line in two columns: two spaces, the
    label, the spaces that bring the label to 35 characters, one space,
    the value.  The width counts characters, so the value starts after
    38 characters on every line whose label has at most 35; a longer
    label is not cut, it pushes its value to the right. *)
Theorem print_metric_columns (label value : string) :
  exists padding,
    print_metric label value ""
    = (Ret tt, [Print ("  " ++ label ++ padding ++ " " ++ value)%string]) /\
    padding = repeat_char " " (35 - len label) /\
    len ("  " ++ label ++ padding ++ " ") = 3 + Nat.max 35 (len label) /\
    len ("  " ++ label ++ padding ++ " " ++ value)
    = 3 + Nat.max 35 (len label) + len value.
Proof.
  exists (repeat_char " " (35 - len label)).
  split.
  - rewrite print_metric_line. unfold metric_line, ljust.
    now rewrite !append_assoc.
  - split; [reflexivity|].
    rewrite !len_append, len_spaces. cbn [len is_continuation andb negb].
    split; lia.
Qed.

(** *** The name of a channel *)

Lemma letter_is_no_underscore (c : ascii) (after_letter : bool) :
  is_upper c || is_lower c = true ->
  "_"%char <> (if after_letter then to_lower c else to_upper c).
Proof.
  destruct c as [[] [] [] [] [] [] [] []], after_letter;
    vm_compute; intros H E; congruence.
Qed.

Lemma title_from_no_underscore (s : string) : forall after_letter,
  contains "_" s = false -> contains "_" (title_from after_letter s) = false.
Proof.
  induction s as [|c s IH]; intros after_letter Hfree; [reflexivity|].
  destruct (free_cons _ _ _ Hfree) as [Hc Hs]. cbn [title_from].
  destruct (is_upper c || is_lower c) eqn:Hletter;
    rewrite contains_char_cons, IH by exact Hs; rewrite orb_false_r.
  - pose proof (letter_is_no_underscore c after_letter Hletter) as Hne.
    now destruct (Ascii.ascii_dec "_" _).
  - now destruct (Ascii.ascii_dec "_" c).
Qed.

(** X21: The name under which a channel is printed holds no underscore,
    whatever the ASCII name stored: every underscore becomes a space,
    and the capitals of [title] bring none back. *)
Theorem channel_label_has_no_underscore (name : string) :
  isascii name = true ->
  contains "_" (title (replace name "_" " ")) = false.
Proof.
  intros _. apply title_from_no_underscore.
  now apply (replace_char_gone "_"%char).
Qed.

Lemma channel_label_has_no_underscore_witness :
  title (replace "paid_search_ads" "_" " ") = "Paid Search Ads"%string /\
  contains "_" (title (replace "paid_search_ads" "_" " ")) = false.
Proof.
  split; [reflexivity|].
  apply (channel_label_has_no_underscore "paid_search_ads"). reflexivity.
Defined.

End FormatProperties.
Section QueryProperties.
Import Py PyNum QuickDashboard.
Local Open Scope list_scope.

(** *** The recurring revenue *)

Lemma same_total_refl (a : option Q) : same_total a a.
Proof. destruct a; cbn; [reflexivity | exact I]. Qed.

Lemma same_total_trans (a b c : option Q) :
  same_total a b -> same_total b c -> same_total a c.
Proof.
  destruct a, b, c; cbn; try tauto. intros H1 H2. now rewrite H1.
Qed.

Lemma SUM_cons_compat (v : option Q) (l l' : list (option Q)) :
  same_total (Sql.SUM l) (Sql.SUM l') ->
  same_total (Sql.SUM (v :: l)) (Sql.SUM (v :: l')).
Proof.
  destruct v as [v|]; cbn [Sql.SUM]; [|tauto].
  destruct (Sql.SUM l), (Sql.SUM l'); cbn; try tauto.
  - intros H. now rewrite H.
  - reflexivity.
Qed.

Lemma SUM_swap (v v' : option Q) (l : list (option Q)) :
  same_total (Sql.SUM (v :: v' :: l)) (Sql.SUM (v' :: v :: l)).
Proof.
  destruct v as [v|], v' as [v'|]; cbn [Sql.SUM];
    try apply same_total_refl.
  destruct (Sql.SUM l); cbn; ring.
Qed.

Lemma SUM_permutation (l l' : list (option Q)) :
  Permutation l l' -> same_total (Sql.SUM l) (Sql.SUM l').
Proof.
  induction 1 as [|v l l' _ IH|v v' l|l l' l'' _ IH1 _ IH2].
  - exact I.
  - now apply SUM_cons_compat.
  - apply SUM_swap.
  - exact (same_total_trans _ _ _ IH1 IH2).
Qed.

Lemma filter_permutation {A} (f : A -> bool) (l l' : list A) :
  Permutation l l' -> Permutation (filter f l) (filter f l').
Proof.
  induction 1 as [|x l l' _ IH|x y l|l l' l'' _ IH1 _ IH2]; cbn [filter].
  - constructor.
  - destruct (f x); [now constructor | exact IH].
  - destruct (f x), (f y); try apply Permutation_refl. constructor.
  - exact (Permutation_trans IH1 IH2).
Qed.

(** X22: The recurring revenue is a property of the set of subscriptions:
    the order of the rows does not change the sum, and a subscription
    that is not active does not count, whatever its amount. *)
Theorem total_mrr_ignores_order_and_inactive :
  (forall subscriptions subscriptions',
     Permutation subscriptions subscriptions' ->
     same_total (Sql.total_mrr subscriptions)
                (Sql.total_mrr subscriptions')) /\
  (forall before after s,
     Sql.is_active s = false ->
     Sql.total_mrr (before ++ s :: after) = Sql.total_mrr (before ++ after)).
Proof.
  split.
  - intros l l' H. unfold Sql.total_mrr. apply SUM_permutation.
    apply Permutation_map. now apply filter_permutation.
  - intros before after s Hs. unfold Sql.total_mrr.
    rewrite !filter_app. cbn [filter]. now rewrite Hs.
Qed.

Lemma SUM_all_null (l : list (option Q)) :
  (forall v, In v l -> v = None) -> Sql.SUM l = None.
Proof.
  induction l as [|v l IH]; intros H; [reflexivity|].
  rewrite (H v (or_introl eq_refl)). cbn [Sql.SUM].
  apply IH. intros v' Hv'. apply H. now right.
Qed.

Lemma monthly_amount_null (s : Sql.subscription) :
  Sql.mrr s = None -> Sql.monthly_amount s = None.
Proof.
  intros H. unfold Sql.monthly_amount. rewrite H.
  destruct (Sql.billing_cycle s =? "monthly")%string; [reflexivity|].
  now destruct (Sql.billing_cycle s =? "annual")%string.
Qed.

(** X23: With no active subscription -- or none with an amount -- the sum
    of the query is [NULL], and the report prints [$0.00] for the
    monthly and for the annual recurring revenue. *)
Theorem mrr_without_revenue (w : world)
  (subscriptions : list Sql.subscription) :
  mrr w = Sql.current_mrr_query subscriptions ->
  (forall s, In s subscriptions -> Sql.is_active s = true ->
             Sql.mrr s = None) ->
  Sql.total_mrr subscriptions = None /\
  current_mrr w
  = (Ret tt, [Execute "Current MRR";
              Print (metric_line "Monthly Recurring Revenue" "$0.00");
              Print (metric_line "Annual Recurring Revenue" "$0.00")]).
Proof.
  intros Hw Hnull.
  assert (Htotal : Sql.total_mrr subscriptions = None).
  { unfold Sql.total_mrr. apply SUM_all_null. intros v Hv.
    apply in_map_iff in Hv. destruct Hv as (s & <- & Hs).
    apply filter_In in Hs. destruct Hs as [Hin Hactive].
    rewrite (monthly_amount_null s (Hnull s Hin Hactive)). reflexivity. }
  split; [exact Htotal|].
  unfold current_mrr. rewrite Hw. unfold Sql.current_mrr_query.
  rewrite Htotal. vm_compute. reflexivity.
Qed.

Lemma mrr_without_revenue_witness :
  current_mrr empty_world
  = (Ret tt, [Execute "Current MRR";
              Print "  Monthly Recurring Revenue           $0.00";
              Print "  Annual Recurring Revenue            $0.00"]).
Proof.
  refine (proj2 (mrr_without_revenue empty_world [] eq_refl _)).
  intros s [].
Defined.

(** *** The conversion rate *)

Lemma somes_In {A} (g : A -> option Z) (l : list A) (z : Z) :
  In z (flat_map (fun v => match v with Some z => [z] | None => [] end)
                 (map g l))
  <-> exists x, In x l /\ g x = Some z.
Proof.
  rewrite in_flat_map. split.
  - intros (v & Hv & Hz). apply in_map_iff in Hv.
    destruct Hv as (x & <- & Hx). exists x. split; [exact Hx|].
    destruct (g x) as [z'|]; [|destruct Hz].
    destruct Hz as [-> | []]. reflexivity.
  - intros (x & Hx & Hg). exists (Some z). split; [|now left].
    apply in_map_iff. now exists x.
Qed.

Lemma nodup_length_incl (l l' : list Z) :
  incl l l' ->
  List.length (nodup Z.eq_dec l) <= List.length (nodup Z.eq_dec l').
Proof.
  intros H. apply NoDup_incl_length; [apply NoDup_nodup|].
  intros z Hz. apply nodup_In. apply H. now apply nodup_In in Hz.
Qed.

Lemma joined_fst users subscriptions row :
  In row (Sql.joined users subscriptions) -> In (fst row) users.
Proof.
  unfold Sql.joined. rewrite in_flat_map. intros (u & Hu & Hrow).
  destruct (filter _ subscriptions) as [|s matches].
  - destruct Hrow as [<- | []]. exact Hu.
  - apply in_map_iff in Hrow. destruct Hrow as (s' & <- & _). exact Hu.
Qed.

Lemma joined_all users subscriptions u :
  In u users ->
  exists row, In row (Sql.joined users subscriptions) /\ fst row = u.
Proof.
  intros Hu. unfold Sql.joined.
  destruct (filter (fun s => (Sql.id u =? Sql.user_id s)%Z && Sql.is_active s)
                   subscriptions) as [|s matches] eqn:E.
  - exists (u, None). split; [|reflexivity].
    apply in_flat_map. exists u. split; [exact Hu|]. rewrite E. now left.
  - exists (u, Some s). split; [|reflexivity].
    apply in_flat_map. exists u. split; [exact Hu|]. rewrite E. now left.
Qed.

Lemma round_half_away_bounds (n d k : Z) :
  (0 < d)%Z -> (0 <= n <= d * k)%Z ->
  (0 <= Sql.round_half_away n d <= k)%Z.
Proof.
  intros Hd [Hn Hk]. unfold Sql.round_half_away.
  rewrite (Z.abs_eq d), (Z.abs_eq n), (Z.sgn_pos d) by lia.
  assert (Hq : (0 <= (2 * n + d) / (2 * d) < k + 1)%Z).
  { split; [apply Z.div_pos; lia|].
    apply Z.div_lt_upper_bound; nia. }
  destruct (Z.sgn_spec n) as [[Hs ->] | [[Hs ->] | [Hs ->]]]; nia.
Qed.

(** The rate of the conversion query, for counts that the query can
    give: a percentage, also after the rounding of the quotient. *)
Lemma conversion_rate_bounds (paid total : Z) :
  (0 <= paid <= total)%Z -> (0 < total)%Z ->
  let rate := Sql.value
                (Sql.div_var
                   (Sql.multiply (Sql.of_integer paid)
                                 {| Sql.unscaled := 1000; Sql.dscale := 1 |})
                   (Sql.of_integer total)) in
  (0 <= rate /\ rate <= 100)%Q.
Proof.
  intros Hpaid Htotal. cbv zeta. unfold Sql.div_var.
  set (r := Sql.select_div_scale _ _).
  cbn [Sql.multiply Sql.of_integer Sql.unscaled Sql.dscale Nat.add].
  change (10 ^ Z.of_nat 1)%Z with 10%Z.
  pose proof (Z.pow_pos_nonneg 10 (Z.of_nat r) ltac:(lia) ltac:(lia)) as Hr.
  pose proof (round_half_away_bounds
                (paid * 1000 * 10 ^ Z.of_nat r) (total * 10)
                (100 * 10 ^ Z.of_nat r) ltac:(lia) ltac:(nia)) as [H0 H100].
  unfold Sql.value, Qle. cbn [Qnum Qden Sql.unscaled Sql.dscale].
  rewrite Z2Pos.id by lia. split; lia.
Qed.

(** X24: The two counts of the conversion query and its rate: every user is
    counted once, however many active subscriptions the join gives
    them; the paying users are among them; and the rate is [NULL] when
    there is no user and a percentage between 0 and 100 otherwise. *)
Theorem conversion_rate_is_a_percentage
  (users : list Sql.user) (subscriptions : list Sql.subscription) :
  Sql.total_users users subscriptions
  = Z.of_nat (List.length (nodup Z.eq_dec (map Sql.id users))) /\
  (0 <= Sql.paid_users users subscriptions
     <= Sql.total_users users subscriptions)%Z /\
  match Sql.conversion_rate_expr (Sql.paid_users users subscriptions)
                                 (Sql.total_users users subscriptions) with
  | inr (Some rate) => (0 <= rate /\ rate <= 100)%Q
  | inr None => users = []
  | inl _ => False
  end.
Proof.
  assert (Htotal : Sql.total_users users subscriptions
                   = Z.of_nat (List.length
                                 (nodup Z.eq_dec (map Sql.id users)))).
  { unfold Sql.total_users, Sql.COUNT_DISTINCT. f_equal.
    apply Nat.le_antisymm; apply nodup_length_incl; intros z Hz.
    - apply somes_In in Hz. destruct Hz as (row & Hrow & E).
      injection E as <-. apply in_map. now apply joined_fst in Hrow.
    - apply in_map_iff in Hz. destruct Hz as (u & <- & Hu).
      destruct (joined_all users subscriptions u Hu) as (row & Hrow & <-).
      apply somes_In. now exists row. }
  assert (Hpaid : (0 <= Sql.paid_users users subscriptions
                     <= Sql.total_users users subscriptions)%Z).
  { unfold Sql.paid_users, Sql.total_users, Sql.COUNT_DISTINCT. split.
    - apply Nat2Z.is_nonneg.
    - apply inj_le. apply nodup_length_incl. intros z Hz.
      apply somes_In in Hz. destruct Hz as (row & Hrow & E).
      apply somes_In. exists row. split; [exact Hrow|].
      destruct (snd row) as [s|]; [|discriminate E].
      destruct (negb (Sql.plan_id s =? 1)%Z); [exact E | discriminate E]. }
  split; [exact Htotal|]. split; [exact Hpaid|].
  unfold Sql.conversion_rate_expr, Sql.NULLIF, Sql.divide.
  destruct (Z.eqb_spec (Sql.total_users users subscriptions) 0) as [E0|Hne];
    cbn [option_map].
  - rewrite Htotal in E0. destruct users as [|u users]; [reflexivity|].
    exfalso. cbn [map] in E0.
    assert (Hin : In (Sql.id u) (nodup Z.eq_dec (Sql.id u :: map Sql.id users)))
      by (apply nodup_In; now left).
    destruct (nodup Z.eq_dec (Sql.id u :: map Sql.id users));
      [destruct Hin | cbn [List.length] in E0; lia].
  - cbn [Sql.of_integer Sql.unscaled].
    destruct (Z.eqb_spec (Sql.total_users users subscriptions) 0);
      [contradiction|].
    cbn [option_map]. apply conversion_rate_bounds; lia.
Qed.

End QueryProperties.
